(** * memgpt/embeddings.py: a shallow embedding and its checked properties

    The module under study builds an embedding provider from a configuration
    record, talks to an OpenAI-style HTTP endpoint, normalises the response
    payload, pads query vectors to a fixed width and keeps texts inside a
    tokenizer budget.

    Python values are modelled as data, exceptions as a result type, and the
    effects the module has (printing, HTTP requests, the process environment)
    as an explicit [World] threaded through a state-and-exception monad.
    What the module imports and does not define (memgpt.utils,
    memgpt.constants, memgpt.credentials, tiktoken, the server behind httpx)
    is gathered in the [Collaborators] class, so that every statement below
    holds for all implementations of these; what Python and the libraries
    do at the calls themselves (subscripts, keyword arguments, the JSON
    encoding of a request body, numpy.pad) is written out. *)

From Stdlib Require Import ZArith Floats Lia.
From stdpp Require Import base strings gmap list pretty.

Set Warnings "-register-all".
#[local] Open Scope Z_scope.

(** ** Python values *)

(** What [response.json()] can produce: the decoded form of a JSON document.
    A decoded object is a [dict] with string keys. *)
Inductive json : Type :=
| JNull
| JBool (b : bool)
| JInt (n : Z)
| JFloat (x : float)
| JStr (s : string)
| JList (items : list json)
| JDict (fields : gmap string json).

(** [uuid.UUID]: a 128-bit number. *)
Record UUID : Type := { uuid_int : N }.

(** The two kinds of subscript that the module writes: [x["key"]] and [x[0]]. *)
Inductive subscript : Type :=
| SKey (k : string)
| SIndex (i : nat).

(** ** Exceptions *)

(** Why a [TypeError] was raised: by the module's own [raise] statements
    (lines 107, 110, 141 and 144); by the interpreter on a subscript that
    the value does not support, or on a call with a keyword that the
    function does not have; or by the JSON encoder on an object it cannot
    write. *)
Inductive type_error : Type :=
| unexpected_payload (response_json : json)
| not_subscriptable (v : json)
| indices_must_be_integers (v : json)
| unexpected_keyword_argument (function keyword : string)
| not_json_serializable (type_name : string).

(** The exception classes that the module raises or catches; [External] is
    whatever other class a library raises (a timeout, a refused connection,
    a body that is not JSON). *)
Inductive exn : Type :=
| ValueError (msg : string)
| TypeError (why : type_error)
| KeyError (k : subscript)
| IndexError
| External (name : string).

Inductive Res (A : Type) : Type :=
| Return (a : A)
| Raise (e : exn).
Arguments Return {A} a.
Arguments Raise {A} e.

(** ** The world the module acts on *)

(** The body of the POST request, [{"input": .., "model": .., "user": ..}]. *)
Record Payload : Type := {
  input : string;
  model : string;
  user : option UUID;
}.

Record Request : Type := {
  req_url : string;
  req_headers : list (string * string);
  req_json : Payload;
  req_timeout : float;
}.

Record World : Type := {
  stdout : list string;          (* lines written by [print], oldest first *)
  debug_out : list string;       (* lines handed to [printd] *)
  requests : list Request;       (* HTTP requests issued, oldest first *)
  environ : gmap string string;  (* [os.environ] *)
}.

(** ** State and exceptions *)

Definition M (A : Type) : Type := World -> Res A * World.

#[global] Instance M_ret : MRet M := fun A a w => (Return a, w).
#[global] Instance M_bind : MBind M := fun A B k m w =>
  match m w with
  | (Return a, w') => k a w'
  | (Raise e, w') => (Raise e, w')
  end.

Definition raise {A} (e : exn) : M A := fun w => (Raise e, w).
Definition lift {A} (r : Res A) : M A := fun w => (r, w).

(** [try: m except (KeyError, IndexError): h] *)
Definition try_except_Key_Index {A} (m : M A) (h : M A) : M A :=
  fun w => match m w with
           | (Raise (KeyError _), w') => h w'
           | (Raise IndexError, w') => h w'
           | other => other
           end.

Definition print (line : string) : M unit :=
  fun w => (Return tt, {| stdout := stdout w ++ [line]; debug_out := debug_out w;
                          requests := requests w; environ := environ w |}).

Definition printd (line : string) : M unit :=
  fun w => (Return tt, {| stdout := stdout w; debug_out := debug_out w ++ [line];
                          requests := requests w; environ := environ w |}).

Definition setenv (k v : string) : M unit :=
  fun w => (Return tt, {| stdout := stdout w; debug_out := debug_out w;
                          requests := requests w; environ := <[k := v]> (environ w) |}).

Definition record_request (r : Request) : M unit :=
  fun w => (Return tt, {| stdout := stdout w; debug_out := debug_out w;
                          requests := requests w ++ [r]; environ := environ w |}).

(** ** Imported names *)

(** [memgpt.credentials.MemGPTCredentials], the fields read here. *)
Record MemGPTCredentials : Type := {
  openai_key : option string;
  azure_key : option string;
  azure_endpoint : option string;
  azure_version : option string;
  azure_embedding_deployment : option string;
}.

(** The imported names.  The tokenizer's [encode] may raise (tiktoken
    refuses a text that holds one of its special tokens), and so may the
    server and the decoding of its response; the other functions return. *)
Class Collaborators : Type := {
  (* memgpt.credentials *)
  MemGPTCredentials_load : MemGPTCredentials;
  (* memgpt.utils *)
  is_valid_url : string -> bool;
  (* memgpt.constants *)
  MAX_EMBEDDING_DIM : Z;
  EMBEDDING_TO_TOKENIZER_MAP : gmap string string;
  EMBEDDING_TO_TOKENIZER_DEFAULT : string;
  (* tiktoken *)
  Encoding : Type;
  get_encoding : string -> Encoding;
  encode : Encoding -> string -> Res (list Z);
  max_length_attr : Encoding -> option Z;   (* [hasattr] and [getattr] in one *)
  (* the network and the server behind httpx: the response to a request
     that was sent, or the exception of the transport; and the decoding of a
     response *)
  Response : Type;
  send : Request -> Res Response;
  Response_json : Response -> Res json;
}.

(** ** Subscripts on decoded JSON *)

(** The [i]-th character of a [str], as a [str] of length one. *)
Definition str_at (s : string) (i : nat) : option string :=
  match String.get i s with
  | Some c => Some (String c EmptyString)
  | None => None
  end.

(** [v[k]] for a string key or a non-negative index. *)
Definition getitem (v : json) (k : subscript) : Res json :=
  match v, k with
  | JDict d, SKey s =>
      match d !! s with Some x => Return x | None => Raise (KeyError k) end
  | JDict _, SIndex _ => Raise (KeyError k)
  | JList l, SIndex i =>
      match l !! i with Some x => Return x | None => Raise IndexError end
  | JList _, SKey _ => Raise (TypeError (indices_must_be_integers v))
  | JStr s, SIndex i =>
      match str_at s i with Some x => Return (JStr x) | None => Raise IndexError end
  | JStr _, SKey _ => Raise (TypeError (indices_must_be_integers v))
  | _, _ => Raise (TypeError (not_subscriptable v))
  end.

(** [d[k]] on a [dict] from strings to strings. *)
Definition dict_getitem (d : gmap string string) (k : string) : Res string :=
  match d !! k with
  | Some v => Return v
  | None => Raise (KeyError (SKey k))
  end.

(** [numpy.pad(a, (before, after), mode="constant")] on a one-dimensional
    array: a negative width is refused, the padding value is zero. *)
Definition np_pad_constant (a : list float) (before after : Z) : Res (list float) :=
  if (before <? 0) || (after <? 0)
  then Raise (ValueError "index can't contain negative values")
  else Return (replicate (Z.to_nat before) 0%float ++ a
               ++ replicate (Z.to_nat after) 0%float).

(** The call of line 42, [format_text(text, embedding_model,
    max_length=max_length)].  The function imported from
    llama_index.embeddings.huggingface_utils is [format_text(text,
    model_name, instruction=None)]: it has no parameter [max_length], so
    Python raises a [TypeError] while it binds the arguments, and the body of
    the function does not run. *)
Definition format_text_with_max_length (text model_name : string) (max_length : Z)
    : Res string :=
  Raise (TypeError (unexpected_keyword_argument "format_text" "max_length")).

(** Whether [json.dumps] can write the body: a [uuid.UUID] is not a value
    that the encoder knows, [None] is written as [null]. *)
Definition json_serializable (body : Payload) : bool :=
  match user body with
  | None => true
  | Some _ => false
  end.

(** ** Lines 19-44: check_and_split_text *)

Section TextChunker.
Context `{Collaborators}.

(** Lines 22-26, the choice of the tokenizer. *)
Definition resolve_encoding (embedding_model : string) : M Encoding :=
  if decide (is_Some (EMBEDDING_TO_TOKENIZER_MAP !! embedding_model)) then
    name ← lift (dict_getitem EMBEDDING_TO_TOKENIZER_MAP embedding_model);
    mret (get_encoding name)
  else
    print ("Warning: couldn't find tokenizer for model " +:+ embedding_model
           +:+ ", using default tokenizer " +:+ EMBEDDING_TO_TOKENIZER_DEFAULT);;
    mret (get_encoding EMBEDDING_TO_TOKENIZER_DEFAULT).

(** Lines 30-36, the token budget. *)
Definition determine_max_length (encoding : Encoding) (embedding_model : string) : M Z :=
  match max_length_attr encoding with
  | Some n => mret n
  | None =>
      printd ("Warning: couldn't find max_length for tokenizer " +:+ embedding_model
              +:+ ", using default max_length 8191");;
      mret 8191
  end.

Definition check_and_split_text (text embedding_model : string) : M (list string) :=
  encoding ← resolve_encoding embedding_model;
  tokens ← lift (encode encoding text);
  let num_tokens := Z.of_nat (length tokens) in
  max_length ← determine_max_length encoding embedding_model;
  text ← (if max_length <? num_tokens then
            print ("Warning: text is too long (" +:+ pretty num_tokens
                   +:+ " tokens), truncating to " +:+ pretty max_length +:+ " tokens.");;
            lift (format_text_with_max_length text embedding_model max_length)
          else mret text);
  mret [text].

End TextChunker.

(** ** The HTTP client *)

Section Client.
Context `{Collaborators}.

(** What [client.post] returns or raises: httpx encodes the body before
    anything is sent, and the [TypeError] of the encoder is raised from the
    call. *)
Definition post (request : Request) : Res Response :=
  if json_serializable (req_json request) then send request
  else Raise (TypeError (not_json_serializable "UUID")).

(** [client.post], with its effect: a request goes out only when its body
    could be encoded. *)
Definition client_post (request : Request) : M Response :=
  (if json_serializable (req_json request) then record_request request else mret tt);;
  lift (post request).

End Client.

(** ** Lines 47-166: class EmbeddingEndpoint *)

Module EmbeddingEndpoint.

Record t : Type := {
  model_name : string;
  _user : option UUID;
  _base_url : string;
  _timeout : float;
}.

Section Methods.
Context `{Collaborators}.

(** The default of [timeout], 60.0, is supplied at the call (line 211). *)
Definition __init__ (model base_url : string) (user : option UUID) (timeout : float) : M t :=
  if negb (is_valid_url base_url) then
    raise (ValueError ("Embeddings endpoint was provided an invalid URL (set to: '"
                       +:+ base_url +:+ "'). Make sure embedding_endpoint is set correctly in your MemGPT config."))
  else
    mret {| model_name := model; _user := user; _base_url := base_url; _timeout := timeout |}.

Definition class_name : string := "EmbeddingEndpoint".

(** Lines 99-112, and again lines 133-146: the reading of the decoded body. *)
Definition parse_payload (response_json : json) : M json :=
  match response_json with
  | JList _ => mret response_json
  | JDict _ =>
      try_except_Key_Index
        (data ← lift (getitem response_json (SKey "data"));
         first ← lift (getitem data (SIndex 0));
         lift (getitem first (SKey "embedding")))
        (raise (TypeError (unexpected_payload response_json)))
  | _ => raise (TypeError (unexpected_payload response_json))
  end.

Definition build_request (self : t) (text : string) : Request :=
  {| req_url := _base_url self +:+ "/embeddings";
     req_headers := [("Content-Type", "application/json")];
     req_json := {| input := text; model := model_name self; user := _user self |};
     req_timeout := _timeout self |}.

Definition _call_api (self : t) (text : string) : M json :=
  if negb (is_valid_url (_base_url self)) then
    raise (ValueError ("Embeddings endpoint does not have a valid URL (set to: '"
                       +:+ _base_url self +:+ "'). Make sure embedding_endpoint is set correctly in your MemGPT config."))
  else
    let request := build_request self text in
    response ← client_post request;
    response_json ← lift (Response_json response);
    parse_payload response_json.

(** The coroutine is modelled by the computation it runs to completion. *)
Definition _acall_api (self : t) (text : string) : M json :=
  if negb (is_valid_url (_base_url self)) then
    raise (ValueError ("Embeddings endpoint does not have a valid URL (set to: '"
                       +:+ _base_url self +:+ "'). Make sure embedding_endpoint is set correctly in your MemGPT config."))
  else
    let request := build_request self text in
    response ← client_post request;
    response_json ← lift (Response_json response);
    parse_payload response_json.

Definition _get_query_embedding (self : t) (query : string) : M json :=
  embedding ← _call_api self query;
  mret embedding.

Definition _get_text_embedding (self : t) (text : string) : M json :=
  embedding ← _call_api self text;
  mret embedding.

Fixpoint _get_text_embeddings (self : t) (texts : list string) : M (list json) :=
  match texts with
  | [] => mret []
  | text :: rest =>
      e ← _get_text_embedding self text;
      es ← _get_text_embeddings self rest;
      mret (e :: es)
  end.

Definition _aget_query_embedding (self : t) (query : string) : M json :=
  _get_query_embedding self query.

Definition _aget_text_embedding (self : t) (text : string) : M json :=
  _get_text_embedding self text.

End Methods.
End EmbeddingEndpoint.

(** ** Lines 169-213: the factory and the padded query *)

Module EmbeddingConfig.
(** [memgpt.data_types.EmbeddingConfig], the fields read here.  The endpoint
    type may be [None]. *)
Record t : Type := {
  embedding_endpoint_type : option string;
  embedding_endpoint : string;
  embedding_model : string;
}.
End EmbeddingConfig.

(** The classes of embedding model that [embedding_model] instantiates, each
    with the arguments it is given. *)
Inductive BaseEmbedding : Type :=
| OpenAIEmbedding (api_base : string) (api_key : option string)
                  (additional_kwargs : list (string * UUID))
| AzureOpenAIEmbedding (model deployment_name : string)
                       (api_key azure_endpoint api_version : option string)
| Endpoint (e : EmbeddingEndpoint.t)
| HuggingFaceEmbedding (model_name : string).

Section Factory.
Context `{Collaborators}.

Definition default_embedding_model : M BaseEmbedding :=
  setenv "TOKENIZERS_PARALLELISM" "False";;
  let model := "BAAI/bge-small-en-v1.5" in
  mret (HuggingFaceEmbedding model).

Definition query_embedding (get_text_embedding : string -> M (list float))
    (query_text : string) : M (list float) :=
  query_vec ← get_text_embedding query_text;
  lift (np_pad_constant query_vec 0 (MAX_EMBEDDING_DIM - Z.of_nat (length query_vec))).

Definition embedding_model (config : EmbeddingConfig.t) (user_id : option UUID)
    : M BaseEmbedding :=
  let endpoint_type := EmbeddingConfig.embedding_endpoint_type config in
  let credentials := MemGPTCredentials_load in
  if decide (endpoint_type = Some "openai") then
    let additional_kwargs :=
      match user_id with Some u => [("user_id", u)] | None => [] end in
    mret (OpenAIEmbedding (EmbeddingConfig.embedding_endpoint config)
                          (openai_key credentials) additional_kwargs)
  else if decide (endpoint_type = Some "azure") then
    let model := "text-embedding-ada-002" in
    let deployment :=
      match azure_embedding_deployment credentials with
      | Some d => d
      | None => model
      end in
    mret (AzureOpenAIEmbedding model deployment (azure_key credentials)
                               (azure_endpoint credentials) (azure_version credentials))
  else if decide (endpoint_type = Some "hugging-face") then
    e ← EmbeddingEndpoint.__init__ (EmbeddingConfig.embedding_model config)
                                   (EmbeddingConfig.embedding_endpoint config)
                                   user_id 60%float;
    mret (Endpoint e)
  else
    default_embedding_model.

End Factory.

(** ** Observations used in the statements *)

(** Which class a built model belongs to. *)
Inductive variant : Type := VOpenAI | VAzure | VEndpoint | VLocalFallback.

Definition variant_of (m : BaseEmbedding) : variant :=
  match m with
  | OpenAIEmbedding _ _ _ => VOpenAI
  | AzureOpenAIEmbedding _ _ _ _ _ => VAzure
  | Endpoint _ => VEndpoint
  | HuggingFaceEmbedding _ => VLocalFallback
  end.

(** The class that each endpoint type leads to, read off the branches of
    [embedding_model]. *)
Definition variant_for (endpoint_type : option string) : variant :=
  if decide (endpoint_type = Some "openai") then VOpenAI
  else if decide (endpoint_type = Some "azure") then VAzure
  else if decide (endpoint_type = Some "hugging-face") then VEndpoint
  else VLocalFallback.

Definition is_number (v : json) : bool :=
  match v with
  | JInt _ | JFloat _ => true
  | _ => false
  end.

(** The body is an object whose ["data"] is an array whose first element is
    an object with an ["embedding"] field holding [e]. *)
Definition first_embedding (body e : json) : Prop :=
  ∃ (d first : gmap string json) (others : list json),
    body = JDict d ∧ d !! "data" = Some (JList (JDict first :: others))
    ∧ first !! "embedding" = Some e.

Definition with_environ (w : World) (k v : string) : World :=
  {| stdout := stdout w; debug_out := debug_out w;
     requests := requests w; environ := <[k := v]> (environ w) |}.

Definition with_stdout (w : World) (line : string) : World :=
  {| stdout := stdout w ++ [line]; debug_out := debug_out w;
     requests := requests w; environ := environ w |}.

Section Observations.
Context `{Collaborators}.

(** The tokenizer that lines 22-26 settle on, without the printing. *)
Definition resolved_encoding (embedding_model : string) : Encoding :=
  match EMBEDDING_TO_TOKENIZER_MAP !! embedding_model with
  | Some name => get_encoding name
  | None => get_encoding EMBEDDING_TO_TOKENIZER_DEFAULT
  end.

(** The budget that lines 30-36 settle on, without the printing. *)
Definition resolved_max_length (embedding_model : string) : Z :=
  match max_length_attr (resolved_encoding embedding_model) with
  | Some n => n
  | None => 8191
  end.

(** The tokens of a text under the resolved tokenizer, or the exception of
    the tokenizer. *)
Definition encoded (embedding_model text : string) : Res (list Z) :=
  encode (resolved_encoding embedding_model) text.

End Observations.

(** ** Sample collaborators, for running the definitions *)

Module Sample.

Definition is_http_url (s : string) : bool :=
  String.prefix "http://" s || String.prefix "https://" s.

(** One token per character. *)
Definition chars (s : string) : list Z :=
  (λ c, Z.of_N (Ascii.N_of_ascii c)) <$> String.list_ascii_of_string s.

(** A tokenizer that refuses a text holding its special token. *)
Definition encode_chars (text : string) : Res (list Z) :=
  match String.index 0 "<|endoftext|>" text with
  | Some _ => Raise (ValueError "Encountered text corresponding to disallowed special token '<|endoftext|>'.")
  | None => Return (chars text)
  end.

(** A text of 8192 characters. *)
Definition long_text : string :=
  String.string_of_list_ascii (replicate (Z.to_nat 8192) (Ascii.ascii_of_nat 97)).

(** Collaborators with a given tokenizer limit. *)
Definition tokenizers (limit : option Z) : Collaborators := {|
  MemGPTCredentials_load :=
    {| openai_key := Some "sk-test"; azure_key := None; azure_endpoint := None;
       azure_version := None; azure_embedding_deployment := None |};
  is_valid_url := is_http_url;
  MAX_EMBEDDING_DIM := 5;
  EMBEDDING_TO_TOKENIZER_MAP := {[ "text-embedding-ada-002" := "cl100k_base" ]};
  EMBEDDING_TO_TOKENIZER_DEFAULT := "cl100k_base";
  Encoding := string;
  get_encoding := λ name, name;
  encode := λ _ text, encode_chars text;
  max_length_attr := λ _, limit;
  Response := json;
  send := λ _, Return (JList [JFloat 0.5%float; JFloat 0.25%float]);
  Response_json := λ r, Return r;
|}.

(** No declared limit, as with tiktoken. *)
Definition collaborators : Collaborators := tokenizers None.

(** A declared limit of four tokens. *)
Definition limited : Collaborators := tokenizers (Some 4).

Definition world : World :=
  {| stdout := []; debug_out := []; requests := []; environ := ∅ |}.

Definition endpoint : EmbeddingEndpoint.t :=
  {| EmbeddingEndpoint.model_name := "BAAI/bge-large-en-v1.5";
     EmbeddingEndpoint._user := None;
     EmbeddingEndpoint._base_url := "not a url";
     EmbeddingEndpoint._timeout := 60%float |}.

Definition config (endpoint_type : option string) : EmbeddingConfig.t :=
  {| EmbeddingConfig.embedding_endpoint_type := endpoint_type;
     EmbeddingConfig.embedding_endpoint := "http://localhost:8080";
     EmbeddingConfig.embedding_model := "BAAI/bge-large-en-v1.5" |}.

(** An embedding model whose [get_text_embedding] answers with [v]. *)
Definition answering (v : list float) : string → M (list float) :=
  λ _, mret v.

Definition openai_style (e : json) : json :=
  JDict {[ "data" := JList [JDict {[ "embedding" := e ]}] ]}.

End Sample.

(** ** Further observations and samples *)

Definition with_request (w : World) (r : Request) : World :=
  {| stdout := stdout w; debug_out := debug_out w;
     requests := requests w ++ [r]; environ := environ w |}.

Definition with_requests (w : World) (rs : list Request) : World :=
  {| stdout := stdout w; debug_out := debug_out w;
     requests := requests w ++ rs; environ := environ w |}.

(** What the parser makes of a body, and what a call answers: neither
    depends on the world it starts from (lemmas [parse_payload_at] and
    [call_api_at] below). *)
Definition parse_result (body : json) : Res json :=
  (EmbeddingEndpoint.parse_payload body
     {| stdout := []; debug_out := []; requests := []; environ := ∅ |}).1.

Section FurtherObservations.
Context `{Collaborators}.

Definition call_result (self : EmbeddingEndpoint.t) (text : string) : Res json :=
  (EmbeddingEndpoint._call_api self text
     {| stdout := []; debug_out := []; requests := []; environ := ∅ |}).1.

(** The requests that one call sends: one when the URL is valid and the
    body can be encoded, none otherwise. *)
Definition sent (self : EmbeddingEndpoint.t) (text : string) : list Request :=
  if is_valid_url (EmbeddingEndpoint._base_url self)
     && json_serializable (req_json (EmbeddingEndpoint.build_request self text))
  then [EmbeddingEndpoint.build_request self text]
  else [].

(** The lines that [check_and_split_text] prints, by cause. *)
Definition tokenizer_warning (embedding_model : string) : list string :=
  match EMBEDDING_TO_TOKENIZER_MAP !! embedding_model with
  | Some _ => []
  | None => ["Warning: couldn't find tokenizer for model " +:+ embedding_model
             +:+ ", using default tokenizer " +:+ EMBEDDING_TO_TOKENIZER_DEFAULT]
  end.

Definition max_length_warning (embedding_model : string) : list string :=
  match max_length_attr (resolved_encoding embedding_model) with
  | Some _ => []
  | None => ["Warning: couldn't find max_length for tokenizer " +:+ embedding_model
             +:+ ", using default max_length 8191"]
  end.

Definition truncation_warning (embedding_model : string) (num_tokens : Z)
    : list string :=
  if resolved_max_length embedding_model <? num_tokens then
    ["Warning: text is too long (" +:+ pretty num_tokens
     +:+ " tokens), truncating to " +:+ pretty (resolved_max_length embedding_model)
     +:+ " tokens."]
  else [].

End FurtherObservations.

Module Served.

(** Collaborators whose transport answers a request by [reply], which may
    look at the text sent. *)
Definition transport (reply : string → Res json) : Collaborators := {|
  MemGPTCredentials_load :=
    {| openai_key := Some "sk-test"; azure_key := Some "az-test";
       azure_endpoint := Some "https://example.openai.azure.com";
       azure_version := Some "2023-05-15"; azure_embedding_deployment := None |};
  is_valid_url := Sample.is_http_url;
  MAX_EMBEDDING_DIM := 5;
  EMBEDDING_TO_TOKENIZER_MAP := {[ "text-embedding-ada-002" := "cl100k_base" ]};
  EMBEDDING_TO_TOKENIZER_DEFAULT := "cl100k_base";
  Encoding := string;
  get_encoding := λ name, name;
  encode := λ _ text, Sample.encode_chars text;
  max_length_attr := λ _, Some 4;
  Response := json;
  send := λ r, reply (input (req_json r));
  Response_json := λ r, Return r;
|}.

(** A server that embeds a text as its length, and has no answer for the
    empty text. *)
Definition lengths : Collaborators :=
  transport (λ text, if decide (text = "") then Raise (External "ReadTimeout")
                     else Return (JList [JInt (Z.of_nat (String.length text))])).

Definition endpoint : EmbeddingEndpoint.t :=
  {| EmbeddingEndpoint.model_name := "BAAI/bge-large-en-v1.5";
     EmbeddingEndpoint._user := None;
     EmbeddingEndpoint._base_url := "http://localhost:8080";
     EmbeddingEndpoint._timeout := 60%float |}.

(** The same endpoint with a user, as the factory builds it from a
    [user_id]. *)
Definition tagged_endpoint : EmbeddingEndpoint.t :=
  {| EmbeddingEndpoint.model_name := "BAAI/bge-large-en-v1.5";
     EmbeddingEndpoint._user := Some {| uuid_int := 7 |};
     EmbeddingEndpoint._base_url := "http://localhost:8080";
     EmbeddingEndpoint._timeout := 60%float |}.

Definition request (text : string) : Request :=
  {| req_url := "http://localhost:8080/embeddings";
     req_headers := [("Content-Type", "application/json")];
     req_json := {| input := text; model := "BAAI/bge-large-en-v1.5"; user := None |};
     req_timeout := 60%float |}.

End Served.

(** * Properties *)

(** ** The monad *)

Lemma bind_Return {A B} (m : M A) (k : A → M B) w a w' :
  m w = (Return a, w') → (m ≫= k) w = k a w'.
Proof. intros E. unfold mbind, M_bind. by rewrite E. Qed.

Lemma bind_Raise {A B} (m : M A) (k : A → M B) w e w' :
  m w = (Raise e, w') → (m ≫= k) w = (Raise e, w').
Proof. intros E. unfold mbind, M_bind. by rewrite E. Qed.

Lemma bind_inv_Return {A B} (m : M A) (k : A → M B) w b w2 :
  (m ≫= k) w = (Return b, w2) →
  ∃ a w1, m w = (Return a, w1) ∧ k a w1 = (Return b, w2).
Proof.
  unfold mbind, M_bind. destruct (m w) as [[a|e] w1]; intros E.
  - by exists a, w1.
  - discriminate E.
Qed.

(** ** check_and_split_text *)

Section TextChunkerFacts.
Context `{Collaborators}.

Lemma dict_getitem_guarded (d : gmap string string) k :
  is_Some (d !! k) → ∃ v, dict_getitem d k = Return v ∧ d !! k = Some v.
Proof. intros [v E]. exists v. unfold dict_getitem. by rewrite E. Qed.

(** The tokenizer is a function of the model identifier; the only effect of
    resolving it is the warning on a miss. *)
Lemma resolve_encoding_runs embedding_model w :
  ∃ w', resolve_encoding embedding_model w = (Return (resolved_encoding embedding_model), w')
        ∧ debug_out w' = debug_out w ∧ requests w' = requests w
        ∧ environ w' = environ w.
Proof.
  unfold resolve_encoding, resolved_encoding. case_decide as Hin.
  - destruct (dict_getitem_guarded _ _ Hin) as (name & Hget & Hlook).
    exists w. rewrite Hlook.
    rewrite (bind_Return _ _ w name w); [done | unfold lift; by rewrite Hget].
  - apply eq_None_not_Some in Hin. rewrite Hin. eexists. split; [reflexivity | done].
Qed.

Lemma determine_max_length_runs embedding_model w :
  ∃ w', determine_max_length (resolved_encoding embedding_model) embedding_model w
          = (Return (resolved_max_length embedding_model), w')
        ∧ stdout w' = stdout w ∧ requests w' = requests w ∧ environ w' = environ w.
Proof.
  unfold determine_max_length, resolved_max_length.
  destruct (max_length_attr _); eexists; (split; [reflexivity | done]).
Qed.

(** Up to the comparison with the budget, the function resolves the
    tokenizer, encodes the text and settles the budget. *)
Lemma check_and_split_text_encode_raises text embedding_model w e :
  encoded embedding_model text = Raise e →
  ∃ w', check_and_split_text text embedding_model w = (Raise e, w')
        ∧ debug_out w' = debug_out w.
Proof.
  intros Henc. unfold check_and_split_text.
  destruct (resolve_encoding_runs embedding_model w) as (w1 & E1 & D1 & _).
  rewrite (bind_Return _ _ _ _ _ E1).
  exists w1. split; [| done].
  apply bind_Raise. unfold lift. by rewrite <- Henc.
Qed.

(** Past the budget the warning is printed and then the call of
    [format_text] raises: no segment is returned. *)
Lemma check_and_split_text_over_budget text embedding_model w tokens :
  encoded embedding_model text = Return tokens →
  resolved_max_length embedding_model < Z.of_nat (length tokens) →
  ∃ w', check_and_split_text text embedding_model w
          = (Raise (TypeError (unexpected_keyword_argument "format_text" "max_length")), w')
        ∧ last (stdout w')
          = Some ("Warning: text is too long (" +:+ pretty (Z.of_nat (length tokens))
                  +:+ " tokens), truncating to "
                  +:+ pretty (resolved_max_length embedding_model) +:+ " tokens.").
Proof.
  intros Henc Hlong. unfold check_and_split_text.
  destruct (resolve_encoding_runs embedding_model w) as (w1 & E1 & _).
  destruct (determine_max_length_runs embedding_model w1) as (w2 & E2 & _).
  rewrite (bind_Return _ _ _ _ _ E1).
  rewrite (bind_Return _ _ w1 tokens w1); [| unfold lift; by rewrite <- Henc].
  rewrite (bind_Return _ _ _ _ _ E2).
  apply Z.ltb_lt in Hlong. rewrite Hlong.
  eexists. split; [reflexivity |]. cbn. apply last_snoc.
Qed.

Lemma check_and_split_text_within_budget text embedding_model w tokens :
  encoded embedding_model text = Return tokens →
  Z.of_nat (length tokens) ≤ resolved_max_length embedding_model →
  ∃ w', check_and_split_text text embedding_model w = (Return [text], w')
        ∧ requests w' = requests w ∧ environ w' = environ w.
Proof.
  intros Henc Hfit. unfold check_and_split_text.
  destruct (resolve_encoding_runs embedding_model w) as (w1 & E1 & _ & R1 & V1).
  destruct (determine_max_length_runs embedding_model w1) as (w2 & E2 & _ & R2 & V2).
  rewrite (bind_Return _ _ _ _ _ E1).
  rewrite (bind_Return _ _ w1 tokens w1); [| unfold lift; by rewrite <- Henc].
  rewrite (bind_Return _ _ _ _ _ E2).
  apply Z.ltb_ge in Hfit. rewrite Hfit.
  exists w2. split; [reflexivity | split; congruence].
Qed.

(** C6. The function does raise.  On a text whose token count is past the
    budget it raises the [TypeError] of the call of line 42, which passes
    [max_length] to a [format_text] that has no such parameter; and on a
    text that the tokenizer refuses it raises the tokenizer's exception.  In
    neither case is a segment returned.  A text within the budget is
    returned unchanged as the only segment. *)
Theorem check_and_split_text_raises text embedding_model w :
  (∀ tokens, encoded embedding_model text = Return tokens →
     resolved_max_length embedding_model < Z.of_nat (length tokens) →
     (check_and_split_text text embedding_model w).1
     = Raise (TypeError (unexpected_keyword_argument "format_text" "max_length")))
  ∧ (∀ e, encoded embedding_model text = Raise e →
       (check_and_split_text text embedding_model w).1 = Raise e)
  ∧ (∀ tokens, encoded embedding_model text = Return tokens →
       Z.of_nat (length tokens) ≤ resolved_max_length embedding_model →
       (check_and_split_text text embedding_model w).1 = Return [text]).
Proof.
  split; [| split].
  - intros tokens Henc Hlong.
    destruct (check_and_split_text_over_budget text embedding_model w tokens Henc Hlong)
      as (w' & E & _).
    by rewrite E.
  - intros e Henc.
    destruct (check_and_split_text_encode_raises text embedding_model w e Henc)
      as (w' & E & _).
    by rewrite E.
  - intros tokens Henc Hfit.
    destruct (check_and_split_text_within_budget text embedding_model w tokens Henc Hfit)
      as (w' & E & _).
    by rewrite E.
Qed.

(** C7. On a text whose token count is past the budget, the truncation
    warning is the last line printed, and then no segment is returned at
    all: the result is an exception, not a sequence. *)
Theorem over_budget_text_warns_and_returns_nothing text embedding_model w tokens :
  encoded embedding_model text = Return tokens →
  resolved_max_length embedding_model < Z.of_nat (length tokens) →
  (∀ segments, (check_and_split_text text embedding_model w).1 ≠ Return segments)
  ∧ last (stdout (check_and_split_text text embedding_model w).2)
    = Some ("Warning: text is too long (" +:+ pretty (Z.of_nat (length tokens))
            +:+ " tokens), truncating to "
            +:+ pretty (resolved_max_length embedding_model) +:+ " tokens.").
Proof.
  intros Henc Hlong.
  destruct (check_and_split_text_over_budget text embedding_model w tokens Henc Hlong)
    as (w' & E & Hlast).
  rewrite E. split; [discriminate | done].
Qed.


End TextChunkerFacts.

(** ** The reading of the response payload *)

Section PayloadFacts.
Context `{Collaborators}.

Ltac run_parse :=
  unfold EmbeddingEndpoint.parse_payload, try_except_Key_Index, mbind, M_bind,
    mret, M_ret, lift, raise; cbn.

Lemma parse_payload_array items w :
  EmbeddingEndpoint.parse_payload (JList items) w = (Return (JList items), w).
Proof. reflexivity. Qed.

Lemma parse_payload_openai_style body e w :
  first_embedding body e → EmbeddingEndpoint.parse_payload body w = (Return e, w).
Proof.
  intros (d & first & others & -> & Hdata & Hemb).
  run_parse. rewrite Hdata. cbn. by rewrite Hemb.
Qed.

(** Reading the first element's ["embedding"] either finds it in an object
    or fails, with a [KeyError] on an object and a [TypeError] elsewhere. *)
Lemma getitem_embedding_cases first :
  (∃ f e, first = JDict f ∧ f !! "embedding" = Some e)
  ∨ (∃ k, getitem first (SKey "embedding") = Raise (KeyError k))
  ∨ (∃ why, getitem first (SKey "embedding") = Raise (TypeError why)).
Proof.
  destruct first as [| | | | |l|f]; cbn; try (right; right; eauto; fail).
  destruct (f !! "embedding") as [e|] eqn:E; [left | right; left]; eauto.
Qed.

Lemma parse_payload_rejects body w :
  (∀ items, body ≠ JList items) → (∀ e, ¬ first_embedding body e) →
  ∃ why, EmbeddingEndpoint.parse_payload body w = (Raise (TypeError why), w).
Proof.
  intros Harr Hobj.
  destruct body as [| | | | |items|d]; try (eexists; reflexivity).
  { by destruct (Harr items). }
  run_parse. destruct (d !! "data") as [data|] eqn:Hdata; cbn; [| eauto].
  destruct data as [| | | |s|l|d']; cbn; eauto.
  - unfold str_at. destruct (String.get 0 s); cbn; eauto.
  - destruct l as [|first others]; cbn; [eauto |].
    destruct (getitem_embedding_cases first) as [(f & e & -> & He) | [[k Hk] | [why Hwhy]]].
    + destruct (Hobj e). by exists d, f, others.
    + rewrite Hk. eauto.
    + rewrite Hwhy. eauto.
Qed.

(** C4. A body that is an array is returned as it is; a body that is an
    object whose ["data"] starts with an object holding ["embedding"] yields
    that embedding; every other decoded body makes the parser raise a
    [TypeError], and nothing is returned. *)
Theorem parse_payload_shapes body w :
  (∀ items, body = JList items →
     EmbeddingEndpoint.parse_payload body w = (Return body, w))
  ∧ (∀ e, first_embedding body e →
       EmbeddingEndpoint.parse_payload body w = (Return e, w))
  ∧ ((∀ items, body ≠ JList items) → (∀ e, ¬ first_embedding body e) →
       ∃ why, EmbeddingEndpoint.parse_payload body w = (Raise (TypeError why), w)).
Proof.
  split; [| split].
  - intros items ->. apply parse_payload_array.
  - intros e He. by apply parse_payload_openai_style.
  - intros Harr Hobj. by apply parse_payload_rejects.
Qed.

(** C10. The elements of an array body are not inspected: there is an array
    with elements that are not numbers which the parser returns unchanged. *)
Theorem parse_payload_array_unvalidated :
  ∃ items, forallb is_number items = false
           ∧ ∀ w, EmbeddingEndpoint.parse_payload (JList items) w = (Return (JList items), w).
Proof.
  exists [JDict ∅; JStr "zero"]. split; [reflexivity |].
  intros w. apply parse_payload_array.
Qed.

End PayloadFacts.

(** ** The endpoint's URL check and its entry points *)

Section EndpointFacts.
Context `{Collaborators}.

Lemma init_invalid_url model base_url user timeout w :
  is_valid_url base_url = false →
  ∃ msg, EmbeddingEndpoint.__init__ model base_url user timeout w
         = (Raise (ValueError msg), w).
Proof. intros E. unfold EmbeddingEndpoint.__init__. rewrite E. cbn. eauto. Qed.

Lemma call_api_invalid_url self text w :
  is_valid_url (EmbeddingEndpoint._base_url self) = false →
  ∃ msg, EmbeddingEndpoint._call_api self text w = (Raise (ValueError msg), w).
Proof. intros E. unfold EmbeddingEndpoint._call_api. rewrite E. cbn. eauto. Qed.

Lemma acall_api_is_call_api self text :
  EmbeddingEndpoint._acall_api self text = EmbeddingEndpoint._call_api self text.
Proof. reflexivity. Qed.

Lemma get_text_embedding_is_call_api self text w :
  EmbeddingEndpoint._get_text_embedding self text w = EmbeddingEndpoint._call_api self text w.
Proof.
  unfold EmbeddingEndpoint._get_text_embedding, mbind, M_bind, mret, M_ret.
  by destruct (EmbeddingEndpoint._call_api self text w) as [[e|e] w'].
Qed.

(** C5. With a base URL that [is_valid_url] refuses, the constructor raises
    [ValueError] and leaves the world, so the list of requests, as it was;
    and on an endpoint whose stored URL is refused, every entry point raises
    [ValueError] with the world as it was, so before any request. *)
Theorem invalid_url_raises_before_any_request base_url w :
  is_valid_url base_url = false →
  (∀ model user timeout,
     ∃ msg, EmbeddingEndpoint.__init__ model base_url user timeout w
            = (Raise (ValueError msg), w))
  ∧ (∀ self text, EmbeddingEndpoint._base_url self = base_url →
       ∃ msg,
         EmbeddingEndpoint._call_api self text w = (Raise (ValueError msg), w)
         ∧ EmbeddingEndpoint._acall_api self text w = (Raise (ValueError msg), w)
         ∧ EmbeddingEndpoint._get_text_embedding self text w = (Raise (ValueError msg), w)
         ∧ EmbeddingEndpoint._get_query_embedding self text w = (Raise (ValueError msg), w)
         ∧ EmbeddingEndpoint._aget_text_embedding self text w = (Raise (ValueError msg), w)
         ∧ EmbeddingEndpoint._aget_query_embedding self text w = (Raise (ValueError msg), w)
         ∧ ∀ texts, EmbeddingEndpoint._get_text_embeddings self (text :: texts) w
                    = (Raise (ValueError msg), w)).
Proof.
  intros Hbad. split.
  - intros model user timeout. by apply init_invalid_url.
  - intros self text <-.
    destruct (call_api_invalid_url self text w Hbad) as [msg Hcall].
    assert (EmbeddingEndpoint._get_text_embedding self text w = (Raise (ValueError msg), w))
      as Htext by (by rewrite get_text_embedding_is_call_api).
    exists msg. repeat split; try done.
    intros texts. cbn. by rewrite (bind_Raise _ _ _ _ _ Htext).
Qed.

(** C9. On the endpoint class, the query path and the two asynchronous paths
    compute what the synchronous text path computes: the same result and the
    same effects, from every world; and the asynchronous form of the API
    call is the synchronous one. *)
Theorem query_and_async_paths_agree self text w :
  EmbeddingEndpoint._get_query_embedding self text w
  = EmbeddingEndpoint._get_text_embedding self text w
  ∧ EmbeddingEndpoint._aget_text_embedding self text w
    = EmbeddingEndpoint._get_text_embedding self text w
  ∧ EmbeddingEndpoint._aget_query_embedding self text w
    = EmbeddingEndpoint._get_text_embedding self text w
  ∧ EmbeddingEndpoint._acall_api self text w
    = EmbeddingEndpoint._call_api self text w.
Proof.
  unfold EmbeddingEndpoint._aget_query_embedding, EmbeddingEndpoint._aget_text_embedding,
    EmbeddingEndpoint._get_query_embedding.
  split; [| split; [| split]]; reflexivity.
Qed.

End EndpointFacts.

(** ** The factory *)

Section FactoryFacts.
Context `{Collaborators}.

Lemma init_valid_url model base_url user timeout w :
  is_valid_url base_url = true →
  EmbeddingEndpoint.__init__ model base_url user timeout w
  = (Return {| EmbeddingEndpoint.model_name := model;
               EmbeddingEndpoint._user := user;
               EmbeddingEndpoint._base_url := base_url;
               EmbeddingEndpoint._timeout := timeout |}, w).
Proof. intros E. unfold EmbeddingEndpoint.__init__. by rewrite E. Qed.

(** Whatever is built belongs to the class that the endpoint type selects. *)
Lemma embedding_model_variant config user_id w m w' :
  embedding_model config user_id w = (Return m, w') →
  variant_of m = variant_for (EmbeddingConfig.embedding_endpoint_type config).
Proof.
  unfold embedding_model, variant_for. repeat case_decide.
  - by intros [= <- _].
  - by intros [= <- _].
  - intros (e & w1 & _ & [= <- _])%bind_inv_Return. done.
  - by intros [= <- _].
Qed.

(** C1, as the code has it. The tag of the self-hosted endpoint is
    ["hugging-face"]: with that endpoint type, the factory calls the
    constructor of [EmbeddingEndpoint] with the model and the base URL of the
    configuration and with [user_id] as the user; it returns the endpoint so
    built when the URL is valid, and the constructor's [ValueError]
    otherwise. *)
Theorem hugging_face_tag_builds_endpoint config user_id w :
  EmbeddingConfig.embedding_endpoint_type config = Some "hugging-face" →
  (is_valid_url (EmbeddingConfig.embedding_endpoint config) = true →
   embedding_model config user_id w
   = (Return (Endpoint {| EmbeddingEndpoint.model_name := EmbeddingConfig.embedding_model config;
                          EmbeddingEndpoint._user := user_id;
                          EmbeddingEndpoint._base_url := EmbeddingConfig.embedding_endpoint config;
                          EmbeddingEndpoint._timeout := 60%float |}), w))
  ∧ (is_valid_url (EmbeddingConfig.embedding_endpoint config) = false →
     ∃ msg, embedding_model config user_id w = (Raise (ValueError msg), w)).
Proof.
  intros Htag. unfold embedding_model. rewrite Htag.
  repeat (case_decide; [done |]). case_decide; [| done].
  split; intros Hurl.
  - by rewrite (bind_Return _ _ _ _ _ (init_valid_url _ _ user_id 60%float w Hurl)).
  - destruct (init_invalid_url (EmbeddingConfig.embedding_model config) _
                user_id 60%float w Hurl) as [msg E].
    exists msg. by rewrite (bind_Raise _ _ _ _ _ E).
Qed.

End FactoryFacts.

(** C2. An endpoint type that is none of ["openai"], ["azure"] and
    ["hugging-face"], or no endpoint type at all, gives the local default
    model and no exception.  The class of a model that the factory builds is
    the one that the endpoint type selects, whatever the credentials, the
    rest of the configuration, the user and the world: so two runs on the
    same endpoint type that both build a model build models of the same
    class, also under different credentials and collaborators. *)
Theorem unrecognized_endpoint_type_falls_back `{Collaborators} config user_id w :
  (EmbeddingConfig.embedding_endpoint_type config ≠ Some "openai" →
   EmbeddingConfig.embedding_endpoint_type config ≠ Some "azure" →
   EmbeddingConfig.embedding_endpoint_type config ≠ Some "hugging-face" →
   embedding_model config user_id w
   = (Return (HuggingFaceEmbedding "BAAI/bge-small-en-v1.5"),
      with_environ w "TOKENIZERS_PARALLELISM" "False"))
  ∧ (∀ m w1,
       embedding_model config user_id w = (Return m, w1) →
       variant_of m = variant_for (EmbeddingConfig.embedding_endpoint_type config))
  ∧ (∀ (other : Collaborators) config' user_id' w' m m' w1 w1',
       EmbeddingConfig.embedding_endpoint_type config
       = EmbeddingConfig.embedding_endpoint_type config' →
       embedding_model config user_id w = (Return m, w1) →
       embedding_model (H := other) config' user_id' w' = (Return m', w1') →
       variant_of m = variant_of m').
Proof.
  split; [| split].
  - intros N1 N2 N3. unfold embedding_model. by repeat (case_decide; [done |]).
  - intros m w1 E. by apply embedding_model_variant in E.
  - intros other config' user_id' w' m m' w1 w1' Htag E E'.
    apply embedding_model_variant in E, E'. by rewrite E, E', Htag.
Qed.

Section PaddingFacts.
Context `{Collaborators}.

(** ** The padded query vector *)

Lemma np_pad_constant_right (a : list float) (after : Z) :
  0 ≤ after →
  np_pad_constant a 0 after = Return (a ++ replicate (Z.to_nat after) 0%float).
Proof.
  intros Hpos. unfold np_pad_constant.
  by replace (after <? 0) with false by (symmetry; apply Z.ltb_ge; lia).
Qed.

Lemma np_pad_constant_negative (a : list float) (after : Z) :
  after < 0 → ∃ msg, np_pad_constant a 0 after = Raise (ValueError msg).
Proof.
  intros Hneg. unfold np_pad_constant.
  replace (after <? 0) with true by (symmetry; apply Z.ltb_lt; lia). cbn. eauto.
Qed.

(** C3. When the model answers with a vector no longer than
    [MAX_EMBEDDING_DIM], the padded query vector has exactly that length,
    agrees with the answer on the answer's positions and is zero from there
    on; when the answer is longer, the call raises [ValueError]. *)
Theorem query_embedding_padded get_text_embedding query_text w (v : list float) w' :
  get_text_embedding query_text w = (Return v, w') →
  (Z.of_nat (length v) ≤ MAX_EMBEDDING_DIM →
   ∃ padded : list float,
     query_embedding get_text_embedding query_text w = (Return padded, w')
     ∧ Z.of_nat (length padded) = MAX_EMBEDDING_DIM
     ∧ (∀ i, (i < length v)%nat → padded !! i = v !! i)
     ∧ (∀ i, (length v ≤ i)%nat → Z.of_nat i < MAX_EMBEDDING_DIM →
          padded !! i = Some 0%float))
  ∧ (MAX_EMBEDDING_DIM < Z.of_nat (length v) →
     ∃ msg, query_embedding get_text_embedding query_text w = (Raise (ValueError msg), w')).
Proof.
  intros Hget. unfold query_embedding. rewrite (bind_Return _ _ _ _ _ Hget).
  unfold lift. split.
  - intros Hfit. rewrite np_pad_constant_right by lia.
    eexists. split; [reflexivity |]. split; [| split].
    + rewrite length_app, length_replicate. lia.
    + intros i Hi. by rewrite lookup_app_l.
    + intros i Hi Hmax. rewrite lookup_app_r by done.
      apply lookup_replicate_2. lia.
  - intros Hwide.
    destruct (np_pad_constant_negative v (MAX_EMBEDDING_DIM - Z.of_nat (length v)))
      as [msg E]; [lia |].
    exists msg. by rewrite E.
Qed.

End PaddingFacts.

(** * The properties at work on the sample collaborators *)

(** ** The examples of the specification *)

Example parse_bare_array w :
  EmbeddingEndpoint.parse_payload (JList [JFloat 0.5; JFloat 0.25; JFloat 0.125]) w
  = (Return (JList [JFloat 0.5; JFloat 0.25; JFloat 0.125]), w).
Proof. reflexivity. Qed.

Example parse_openai_style w :
  EmbeddingEndpoint.parse_payload (Sample.openai_style (JList [JFloat 0.5; JFloat 0.25])) w
  = (Return (JList [JFloat 0.5; JFloat 0.25]), w).
Proof. by vm_compute. Qed.

Example parse_unexpected_object w :
  EmbeddingEndpoint.parse_payload (JDict {[ "unexpected" := JInt 1 ]}) w
  = (Raise (TypeError (unexpected_payload (JDict {[ "unexpected" := JInt 1 ]}))), w).
Proof. by vm_compute. Qed.

Example parse_empty_data w :
  EmbeddingEndpoint.parse_payload (JDict {[ "data" := JList [] ]}) w
  = (Raise (TypeError (unexpected_payload (JDict {[ "data" := JList [] ]}))), w).
Proof. by vm_compute. Qed.

(** Here the [TypeError] is the interpreter's, on ["a"]["embedding"]. *)
Example parse_data_is_text w :
  EmbeddingEndpoint.parse_payload (JDict {[ "data" := JStr "abc" ]}) w
  = (Raise (TypeError (indices_must_be_integers (JStr "a"))), w).
Proof. by vm_compute. Qed.

Example pad_two_to_five :
  query_embedding (H := Sample.collaborators) (Sample.answering [1; 2]%float) "q" Sample.world
  = (Return [1; 2; 0; 0; 0]%float, Sample.world).
Proof. reflexivity. Qed.

Example pad_six_to_five :
  query_embedding (H := Sample.collaborators)
    (Sample.answering [1; 1; 1; 1; 1; 1]%float) "q" Sample.world
  = (Raise (ValueError "index can't contain negative values"), Sample.world).
Proof. reflexivity. Qed.

Example unknown_value_falls_back :
  (embedding_model (H := Sample.collaborators)
     (Sample.config (Some "unknown-value")) None Sample.world).1
  = Return (HuggingFaceEmbedding "BAAI/bge-small-en-v1.5").
Proof. by vm_compute. Qed.

Example short_text_unchanged :
  check_and_split_text (H := Sample.collaborators) "hello" "text-embedding-ada-002" Sample.world
  = (Return ["hello"],
     {| stdout := [];
        debug_out := ["Warning: couldn't find max_length for tokenizer text-embedding-ada-002, using default max_length 8191"];
        requests := []; environ := ∅ |}).
Proof. by vm_compute. Qed.

(** Five tokens under a limit of four: the warning, then the [TypeError]
    of the call of [format_text]. *)
Example over_budget_text_raises :
  check_and_split_text (H := Sample.limited) "hello" "text-embedding-ada-002" Sample.world
  = (Raise (TypeError (unexpected_keyword_argument "format_text" "max_length")),
     with_stdout Sample.world "Warning: text is too long (5 tokens), truncating to 4 tokens.").
Proof. by vm_compute. Qed.

(** A text that the tokenizer refuses: its exception, and nothing printed. *)
Example special_token_text_raises :
  check_and_split_text (H := Sample.limited) "<|endoftext|>" "text-embedding-ada-002"
    Sample.world
  = (Raise (ValueError "Encountered text corresponding to disallowed special token '<|endoftext|>'."),
     Sample.world).
Proof. by vm_compute. Qed.

(** ** The endpoint type that the specification names *)

(** With the endpoint type ["http-endpoint"], a valid base URL and a user,
    the factory does not build the self-hosted endpoint: it takes the last
    branch and returns the local default model. *)
Lemma http_endpoint_tag_falls_back :
  is_valid_url (Collaborators := Sample.collaborators)
    (EmbeddingConfig.embedding_endpoint (Sample.config (Some "http-endpoint"))) = true
  ∧ (embedding_model (H := Sample.collaborators)
       (Sample.config (Some "http-endpoint")) (Some {| uuid_int := 7 |}) Sample.world).1
    = Return (HuggingFaceEmbedding "BAAI/bge-small-en-v1.5")
  ∧ ∀ e, (embedding_model (H := Sample.collaborators)
            (Sample.config (Some "http-endpoint")) (Some {| uuid_int := 7 |}) Sample.world).1
         ≠ Return (Endpoint e).
Proof.
  assert ((embedding_model (H := Sample.collaborators)
             (Sample.config (Some "http-endpoint")) (Some {| uuid_int := 7 |}) Sample.world).1
          = Return (HuggingFaceEmbedding "BAAI/bge-small-en-v1.5")) as E by (by vm_compute).
  split; [reflexivity | split; [exact E |]].
  intros e. rewrite E. discriminate.
Qed.

(** ** Instances *)

Lemma hugging_face_tag_builds_endpoint_witness :
  embedding_model (H := Sample.collaborators)
    (Sample.config (Some "hugging-face")) (Some {| uuid_int := 7 |}) Sample.world
  = (Return (Endpoint {| EmbeddingEndpoint.model_name := "BAAI/bge-large-en-v1.5";
                         EmbeddingEndpoint._user := Some {| uuid_int := 7 |};
                         EmbeddingEndpoint._base_url := "http://localhost:8080";
                         EmbeddingEndpoint._timeout := 60%float |}), Sample.world).
Proof.
  apply (proj1 (@hugging_face_tag_builds_endpoint Sample.collaborators
                  (Sample.config (Some "hugging-face")) (Some {| uuid_int := 7 |})
                  Sample.world eq_refl)).
  reflexivity.
Defined.

Lemma unrecognized_endpoint_type_falls_back_witness :
  embedding_model (H := Sample.collaborators) (Sample.config None) None Sample.world
  = (Return (HuggingFaceEmbedding "BAAI/bge-small-en-v1.5"),
     with_environ Sample.world "TOKENIZERS_PARALLELISM" "False").
Proof.
  apply (proj1 (@unrecognized_endpoint_type_falls_back Sample.collaborators
                  (Sample.config None) None Sample.world)); discriminate.
Defined.

Lemma query_embedding_padded_witness :
  (∃ padded : list float,
     query_embedding (H := Sample.collaborators) (Sample.answering [1; 2]%float) "q" Sample.world
     = (Return padded, Sample.world)
     ∧ Z.of_nat (length padded) = 5
     ∧ (∀ i, (i < 2)%nat → padded !! i = [1; 2]%float !! i)
     ∧ (∀ i, (2 ≤ i)%nat → Z.of_nat i < 5 → padded !! i = Some 0%float))
  ∧ (∃ msg,
       query_embedding (H := Sample.collaborators)
         (Sample.answering [1; 1; 1; 1; 1; 1]%float) "q" Sample.world
       = (Raise (ValueError msg), Sample.world)).
Proof.
  split.
  - apply (proj1 (@query_embedding_padded Sample.collaborators
                    (Sample.answering [1; 2]%float) "q" Sample.world
                    [1; 2]%float Sample.world eq_refl)).
    cbn. lia.
  - apply (proj2 (@query_embedding_padded Sample.collaborators
                    (Sample.answering [1; 1; 1; 1; 1; 1]%float) "q" Sample.world
                    [1; 1; 1; 1; 1; 1]%float Sample.world eq_refl)).
    cbn. lia.
Defined.

Lemma parse_payload_shapes_witness :
  EmbeddingEndpoint.parse_payload (Sample.openai_style (JList [JFloat 0.5])) Sample.world
  = (Return (JList [JFloat 0.5]), Sample.world)
  ∧ ∃ why, EmbeddingEndpoint.parse_payload (JDict {[ "unexpected" := JInt 1 ]}) Sample.world
           = (Raise (TypeError why), Sample.world).
Proof.
  split.
  - apply (proj1 (proj2 (parse_payload_shapes
                           (Sample.openai_style (JList [JFloat 0.5])) Sample.world))).
    exists {[ "data" := JList [JDict {[ "embedding" := JList [JFloat 0.5] ]}] ]},
           {[ "embedding" := JList [JFloat 0.5] ]}, [].
    split; [reflexivity | split; reflexivity].
  - apply (proj2 (proj2 (parse_payload_shapes
                           (JDict {[ "unexpected" := JInt 1 ]}) Sample.world))).
    + discriminate.
    + intros e (d & first & others & [= <-] & Hdata & _). discriminate Hdata.
Defined.

Lemma invalid_url_raises_before_any_request_witness :
  (∃ msg, EmbeddingEndpoint.__init__ (H := Sample.collaborators)
            "BAAI/bge-large-en-v1.5" "not a url" None 60%float Sample.world
          = (Raise (ValueError msg), Sample.world))
  ∧ (∃ msg, EmbeddingEndpoint._call_api (H := Sample.collaborators)
              Sample.endpoint "some text" Sample.world
            = (Raise (ValueError msg), Sample.world)).
Proof.
  pose proof (@invalid_url_raises_before_any_request Sample.collaborators
                "not a url" Sample.world eq_refl) as [Hinit Hcall].
  split.
  - apply Hinit.
  - destruct (Hcall Sample.endpoint "some text" eq_refl) as (msg & E & _).
    by exists msg.
Defined.

Lemma check_and_split_text_raises_witness :
  (check_and_split_text (H := Sample.collaborators)
     Sample.long_text "text-embedding-ada-002" Sample.world).1
  = Raise (TypeError (unexpected_keyword_argument "format_text" "max_length"))
  ∧ (check_and_split_text (H := Sample.collaborators)
       "<|endoftext|>" "text-embedding-ada-002" Sample.world).1
    = Raise (ValueError "Encountered text corresponding to disallowed special token '<|endoftext|>'.").
Proof.
  split.
  - apply (proj1 (@check_and_split_text_raises Sample.collaborators
                    Sample.long_text "text-embedding-ada-002" Sample.world)
             (Sample.chars Sample.long_text)).
    + by vm_compute.
    + by vm_compute.
  - apply (proj1 (proj2 (@check_and_split_text_raises Sample.collaborators
                           "<|endoftext|>" "text-embedding-ada-002" Sample.world))).
    by vm_compute.
Defined.

Lemma over_budget_text_warns_and_returns_nothing_witness :
  (∀ segments,
     (check_and_split_text (H := Sample.limited)
        "hello" "text-embedding-ada-002" Sample.world).1 ≠ Return segments)
  ∧ last (stdout (check_and_split_text (H := Sample.limited)
                    "hello" "text-embedding-ada-002" Sample.world).2)
    = Some "Warning: text is too long (5 tokens), truncating to 4 tokens.".
Proof.
  apply (@over_budget_text_warns_and_returns_nothing Sample.limited
           "hello" "text-embedding-ada-002" Sample.world (Sample.chars "hello")).
  - by vm_compute.
  - by vm_compute.
Defined.


(** * Further properties *)

(** ** One call to the endpoint *)

Section CallFacts.
Context `{Collaborators}.

(** The parser has no effect, and its result does not depend on the world. *)
Lemma parse_payload_at body w :
  EmbeddingEndpoint.parse_payload body w = (parse_result body, w).
Proof.
  unfold parse_result, EmbeddingEndpoint.parse_payload, try_except_Key_Index,
    mbind, M_bind, mret, M_ret, lift, raise.
  destruct body as [| | | | |items|d]; try reflexivity.
  destruct (getitem (JDict d) (SKey "data")) as [data|[]]; try reflexivity.
  destruct (getitem data (SIndex 0)) as [first|[]]; try reflexivity.
  destruct (getitem first (SKey "embedding")) as [e|[]]; reflexivity.
Qed.

Lemma parse_result_array items : parse_result (JList items) = Return (JList items).
Proof. reflexivity. Qed.

Lemma parse_result_openai_style body e :
  first_embedding body e → parse_result body = Return e.
Proof.
  intros Hshape. unfold parse_result.
  by rewrite (parse_payload_openai_style body e _ Hshape).
Qed.

(** The two shapes are the only bodies from which the parser returns. *)
Lemma parse_result_Return_inv body e :
  parse_result body = Return e →
  (∃ items, body = JList items ∧ e = body) ∨ first_embedding body e.
Proof.
  destruct body as [| | | | |items|d]; try discriminate.
  { intros [= <-]. left. eauto. }
  intros Hret. right.
  unfold parse_result, EmbeddingEndpoint.parse_payload, try_except_Key_Index,
    mbind, M_bind, mret, M_ret, lift, raise in Hret. cbn in Hret.
  destruct (d !! "data") as [data|] eqn:Hdata; [| discriminate Hret].
  destruct data as [| | | |s|l|d']; try discriminate Hret.
  - cbn in Hret. unfold str_at in Hret. destruct (String.get 0 s); discriminate Hret.
  - destruct l as [|first others]; [discriminate Hret |]. cbn in Hret.
    destruct first as [| | | | |l'|f]; try discriminate Hret.
    cbn in Hret. destruct (f !! "embedding") as [x|] eqn:Hemb; [| discriminate Hret].
    injection Hret as <-. by exists d, f, others.
Qed.

(** The exceptions of the subscripts do not leave the parser: from it comes
    a [TypeError] or nothing. *)
Lemma parse_result_Raise_inv body e :
  parse_result body = Raise e → ∃ why, e = TypeError why.
Proof.
  unfold parse_result, EmbeddingEndpoint.parse_payload, try_except_Key_Index,
    mbind, M_bind, mret, M_ret, lift, raise.
  destruct body as [| | | | |items|d]; cbn; try (intros [= <-]; eauto; fail).
  destruct (d !! "data") as [data|]; cbn; [| intros [= <-]; eauto].
  destruct data as [| | | |s|l|d']; cbn; try (intros [= <-]; eauto; fail).
  - unfold str_at. destruct (String.get 0 s); cbn; intros [= <-]; eauto.
  - destruct l as [|first others]; cbn; [intros [= <-]; eauto |].
    destruct first as [| | | | |l'|f]; cbn; try (intros [= <-]; eauto; fail).
    destruct (f !! "embedding"); cbn; intros [= <-]; eauto.
Qed.

Lemma with_requests_nil w : with_requests w [] = w.
Proof. destruct w. unfold with_requests. cbn. by rewrite app_nil_r. Qed.

Lemma with_requests_cons w r rs :
  with_requests (with_request w r) rs = with_requests w (r :: rs).
Proof. unfold with_requests, with_request. cbn. by rewrite <- app_assoc. Qed.

Lemma with_requests_app w rs rs' :
  with_requests (with_requests w rs) rs' = with_requests w (rs ++ rs').
Proof. unfold with_requests. cbn. by rewrite <- app_assoc. Qed.

Lemma client_post_at request w :
  client_post request w
  = (post request,
     if json_serializable (req_json request) then with_request w request else w).
Proof.
  unfold client_post, mbind, M_bind, record_request, lift, mret, M_ret.
  by destruct (json_serializable _).
Qed.

Lemma post_unserializable request :
  json_serializable (req_json request) = false →
  post request = Raise (TypeError (not_json_serializable "UUID")).
Proof. intros E. unfold post. by rewrite E. Qed.

Lemma post_serializable request :
  json_serializable (req_json request) = true → post request = send request.
Proof. intros E. unfold post. by rewrite E. Qed.

Lemma call_result_valid self text :
  is_valid_url (EmbeddingEndpoint._base_url self) = true →
  call_result self text
  = match post (EmbeddingEndpoint.build_request self text) with
    | Return resp =>
        match Response_json resp with
        | Return body => parse_result body
        | Raise e => Raise e
        end
    | Raise e => Raise e
    end.
Proof.
  intros Hurl. unfold call_result, EmbeddingEndpoint._call_api. rewrite Hurl.
  cbn. unfold mbind, M_bind, lift. rewrite client_post_at.
  destruct (post _) as [resp|e]; [| reflexivity].
  destruct (Response_json resp) as [body|e]; [| reflexivity].
  by rewrite parse_payload_at.
Qed.

Lemma call_result_invalid self text :
  is_valid_url (EmbeddingEndpoint._base_url self) = false →
  ∃ msg, call_result self text = Raise (ValueError msg).
Proof.
  intros Hurl. unfold call_result, EmbeddingEndpoint._call_api. rewrite Hurl.
  cbn. eauto.
Qed.

(** What a call answers, and what it does to the world. *)
Lemma call_api_at self text w :
  EmbeddingEndpoint._call_api self text w
  = (call_result self text, with_requests w (sent self text)).
Proof.
  unfold sent.
  destruct (is_valid_url (EmbeddingEndpoint._base_url self)) eqn:Hurl.
  - rewrite (call_result_valid _ _ Hurl).
    unfold EmbeddingEndpoint._call_api. rewrite Hurl. cbn [negb andb].
    unfold mbind, M_bind, lift. rewrite client_post_at.
    destruct (json_serializable _); rewrite ?with_requests_nil;
      (destruct (post _) as [resp|e]; [| reflexivity]);
      (destruct (Response_json resp) as [body|e]; [| reflexivity]);
      by rewrite parse_payload_at.
  - cbn [andb]. rewrite with_requests_nil.
    unfold call_result, EmbeddingEndpoint._call_api. by rewrite Hurl.
Qed.

Lemma get_text_embedding_at self text w :
  EmbeddingEndpoint._get_text_embedding self text w
  = (call_result self text, with_requests w (sent self text)).
Proof.
  unfold EmbeddingEndpoint._get_text_embedding, mbind, M_bind, mret, M_ret.
  rewrite call_api_at. by destruct (call_result self text).
Qed.

Lemma sent_one self text :
  is_valid_url (EmbeddingEndpoint._base_url self) = true →
  EmbeddingEndpoint._user self = None →
  sent self text = [EmbeddingEndpoint.build_request self text].
Proof. intros Hurl Huser. unfold sent, json_serializable. cbn. by rewrite Hurl, Huser. Qed.

Lemma sent_none_with_user self text u :
  EmbeddingEndpoint._user self = Some u → sent self text = [].
Proof.
  intros Huser. unfold sent, json_serializable. cbn. rewrite Huser.
  by destruct (is_valid_url _).
Qed.

(** A call that returns has sent its request. *)
Lemma sent_of_Return self text e :
  call_result self text = Return e →
  sent self text = [EmbeddingEndpoint.build_request self text].
Proof.
  intros Hret. unfold sent.
  destruct (is_valid_url (EmbeddingEndpoint._base_url self)) eqn:Hurl.
  - destruct (json_serializable _) eqn:Hser; [done |].
    rewrite (call_result_valid _ _ Hurl), (post_unserializable _ Hser) in Hret.
    discriminate Hret.
  - destruct (call_result_invalid self text Hurl) as [msg E]. congruence.
Qed.

(** With a user, which is a [uuid.UUID], the body cannot be encoded. *)
Lemma call_result_with_user self text u :
  is_valid_url (EmbeddingEndpoint._base_url self) = true →
  EmbeddingEndpoint._user self = Some u →
  call_result self text = Raise (TypeError (not_json_serializable "UUID")).
Proof.
  intros Hurl Huser. rewrite (call_result_valid _ _ Hurl), post_unserializable; [done |].
  unfold json_serializable. cbn. by rewrite Huser.
Qed.

(** X1. On an endpoint with a valid URL and no user, a call leaves the
    world with exactly one more request, whatever the call then returns or
    raises: a POST to the base URL followed by [/embeddings], with the JSON
    content type, the text, the model name and no user in the body, and the
    endpoint's timeout.  Nothing is printed and nothing is sent twice.  On
    an endpoint with a user the call raises the [TypeError] of the JSON
    encoder and nothing is sent. *)
Theorem call_api_issues_exactly_one_request self text w :
  is_valid_url (EmbeddingEndpoint._base_url self) = true →
  (EmbeddingEndpoint._user self = None →
   (EmbeddingEndpoint._call_api self text w).2
   = with_request w
       {| req_url := EmbeddingEndpoint._base_url self +:+ "/embeddings";
          req_headers := [("Content-Type", "application/json")];
          req_json := {| input := text; model := EmbeddingEndpoint.model_name self;
                         user := None |};
          req_timeout := EmbeddingEndpoint._timeout self |})
  ∧ (∀ u, EmbeddingEndpoint._user self = Some u →
       EmbeddingEndpoint._call_api self text w
       = (Raise (TypeError (not_json_serializable "UUID")), w)).
Proof.
  intros Hurl. rewrite call_api_at. split.
  - intros Huser. rewrite (sent_one _ _ Hurl Huser). cbn.
    unfold with_requests, with_request, EmbeddingEndpoint.build_request.
    by rewrite Huser.
  - intros u Huser.
    by rewrite (sent_none_with_user _ _ _ Huser), with_requests_nil,
      (call_result_with_user _ _ _ Hurl Huser).
Qed.

(** X2. A call returns an embedding exactly when the URL is valid, the
    transport delivers a response, the response decodes, and the decoded
    body is an array (then returned as it is) or an object whose ["data"]
    starts with an object holding the embedding. *)
Theorem call_api_returns_iff self text w e :
  (EmbeddingEndpoint._call_api self text w).1 = Return e
  ↔ is_valid_url (EmbeddingEndpoint._base_url self) = true
    ∧ ∃ resp body,
        post (EmbeddingEndpoint.build_request self text) = Return resp
        ∧ Response_json resp = Return body
        ∧ ((∃ items, body = JList items ∧ e = body) ∨ first_embedding body e).
Proof.
  rewrite call_api_at. cbn. split.
  - intros Hret.
    destruct (is_valid_url (EmbeddingEndpoint._base_url self)) eqn:Hurl.
    + split; [done |]. rewrite (call_result_valid _ _ Hurl) in Hret.
      destruct (post _) as [resp|?]; [| discriminate Hret].
      destruct (Response_json resp) as [body|?] eqn:Hjson; [| discriminate Hret].
      exists resp, body. eauto using parse_result_Return_inv.
    + destruct (call_result_invalid self text Hurl) as [msg E]. congruence.
  - intros (Hurl & resp & body & Hpost & Hjson & Hshape).
    rewrite (call_result_valid _ _ Hurl), Hpost, Hjson.
    destruct Hshape as [(items & -> & ->) | Hshape].
    + apply parse_result_array.
    + by apply parse_result_openai_style.
Qed.

(** X3. An exception that leaves a call is one of four: the [ValueError] of
    the URL check, raised with the world untouched; the exception of the
    transport; the exception of the decoding; or a [TypeError] for a decoded
    body of neither shape.  A [KeyError] or an [IndexError] of the
    subscripts never leaves it. *)
Theorem call_api_raises_only self text w e :
  (EmbeddingEndpoint._call_api self text w).1 = Raise e →
  (is_valid_url (EmbeddingEndpoint._base_url self) = false
   ∧ (∃ msg, e = ValueError msg)
   ∧ (EmbeddingEndpoint._call_api self text w).2 = w)
  ∨ post (EmbeddingEndpoint.build_request self text) = Raise e
  ∨ (∃ resp, post (EmbeddingEndpoint.build_request self text) = Return resp
             ∧ Response_json resp = Raise e)
  ∨ (∃ resp body why,
       post (EmbeddingEndpoint.build_request self text) = Return resp
       ∧ Response_json resp = Return body
       ∧ e = TypeError why
       ∧ (∀ items, body ≠ JList items) ∧ (∀ x, ¬ first_embedding body x)).
Proof.
  rewrite call_api_at. cbn. intros Hraise.
  destruct (is_valid_url (EmbeddingEndpoint._base_url self)) eqn:Hurl.
  - right. rewrite (call_result_valid _ _ Hurl) in Hraise.
    destruct (post _) as [resp|e0]; [| left; congruence].
    right. destruct (Response_json resp) as [body|e0] eqn:Hjson;
      [| left; exists resp; split; congruence].
    right. destruct (parse_result_Raise_inv _ _ Hraise) as [why ->].
    exists resp, body, why. repeat split; try done.
    + intros items ->. by rewrite parse_result_array in Hraise.
    + intros x Hx. by rewrite (parse_result_openai_style _ _ Hx) in Hraise.
  - left. destruct (call_result_invalid self text Hurl) as [msg E].
    split; [done |]. split; [exists msg; congruence |].
    unfold sent. rewrite Hurl. cbn. apply with_requests_nil.
Qed.

(** X4. On an endpoint with a valid URL and no user, an exception with
    which the transport answers the request comes out of every entry point
    as it is, after the one request: it is not wrapped, and the request is
    not repeated. *)
Theorem transport_exception_propagates self text w e :
  is_valid_url (EmbeddingEndpoint._base_url self) = true →
  EmbeddingEndpoint._user self = None →
  send (EmbeddingEndpoint.build_request self text) = Raise e →
  let w' := with_request w (EmbeddingEndpoint.build_request self text) in
  EmbeddingEndpoint._call_api self text w = (Raise e, w')
  ∧ EmbeddingEndpoint._acall_api self text w = (Raise e, w')
  ∧ EmbeddingEndpoint._get_text_embedding self text w = (Raise e, w')
  ∧ EmbeddingEndpoint._get_query_embedding self text w = (Raise e, w')
  ∧ EmbeddingEndpoint._aget_text_embedding self text w = (Raise e, w')
  ∧ EmbeddingEndpoint._aget_query_embedding self text w = (Raise e, w')
  ∧ ∀ rest, EmbeddingEndpoint._get_text_embeddings self (text :: rest) w = (Raise e, w').
Proof.
  intros Hurl Huser Hsend w'.
  assert (call_result self text = Raise e) as Hres.
  { rewrite (call_result_valid _ _ Hurl), post_serializable, Hsend; [done |].
    unfold json_serializable. cbn. by rewrite Huser. }
  assert (EmbeddingEndpoint._get_text_embedding self text w = (Raise e, w')) as Htext.
  { by rewrite get_text_embedding_at, Hres, (sent_one _ _ Hurl Huser). }
  assert (EmbeddingEndpoint._call_api self text w = (Raise e, w')) as Hcall.
  { by rewrite call_api_at, Hres, (sent_one _ _ Hurl Huser). }
  repeat split; try done.
  intros rest. cbn. by rewrite (bind_Raise _ _ _ _ _ Htext).
Qed.

End CallFacts.

(** ** Several texts, and the endpoint from its construction on *)

Section EndpointUseFacts.
Context `{Collaborators}.

Lemma get_text_embedding_Return self text w e w' :
  EmbeddingEndpoint._get_text_embedding self text w = (Return e, w') →
  call_result self text = Return e
  ∧ w' = with_request w (EmbeddingEndpoint.build_request self text).
Proof.
  rewrite get_text_embedding_at. intros [= Hres <-]. split; [done |].
  by rewrite (sent_of_Return _ _ _ Hres).
Qed.

Lemma init_Return_inv model base_url user timeout w self w' :
  EmbeddingEndpoint.__init__ model base_url user timeout w = (Return self, w') →
  is_valid_url base_url = true ∧ w' = w
  ∧ self = {| EmbeddingEndpoint.model_name := model;
              EmbeddingEndpoint._user := user;
              EmbeddingEndpoint._base_url := base_url;
              EmbeddingEndpoint._timeout := timeout |}.
Proof.
  unfold EmbeddingEndpoint.__init__.
  destruct (is_valid_url base_url); cbn; [| discriminate].
  by intros [= <- <-].
Qed.

(** X5. When the embedding of a list of texts returns, it returns the
    embedding of each text, in the order of the texts, and it has issued one
    request per text, in that order; for no text, none. *)
Theorem get_text_embeddings_elementwise self texts w es w' :
  EmbeddingEndpoint._get_text_embeddings self texts w = (Return es, w') →
  Return <$> es = call_result self <$> texts
  ∧ w' = with_requests w (EmbeddingEndpoint.build_request self <$> texts).
Proof.
  revert w es. induction texts as [|text rest IH]; intros w es.
  - intros [= <- <-]. by rewrite with_requests_nil.
  - cbn. intros (e & w1 & Hfirst & Hrest)%bind_inv_Return.
    apply bind_inv_Return in Hrest as (es' & w2 & Hrec & [= <- <-]).
    apply get_text_embedding_Return in Hfirst as [Hres ->].
    apply IH in Hrec as [Hmap ->].
    split; [by rewrite fmap_cons, Hmap, Hres | apply with_requests_cons].
Qed.

(** X6. On an endpoint with a valid URL and no user, when the texts before
    some text embed and that text does not, the embedding of the list raises
    the exception of that text, and the requests issued are those of the
    texts up to and including it: nothing is sent for the texts after it. *)
Theorem get_text_embeddings_stops_at_first_failure self before text after w e :
  is_valid_url (EmbeddingEndpoint._base_url self) = true →
  EmbeddingEndpoint._user self = None →
  (∀ t, t ∈ before → ∃ x, call_result self t = Return x) →
  call_result self text = Raise e →
  EmbeddingEndpoint._get_text_embeddings self (before ++ text :: after) w
  = (Raise e, with_requests w (EmbeddingEndpoint.build_request self <$> before ++ [text])).
Proof.
  intros Hurl Huser Hbefore Hfail. revert w.
  induction before as [|t before IH]; intros w; cbn.
  - erewrite bind_Raise; [reflexivity |].
    by rewrite get_text_embedding_at, Hfail, (sent_one _ _ Hurl Huser).
  - destruct (Hbefore t) as [x Hx]; [left |].
    erewrite bind_Return;
      [| by rewrite get_text_embedding_at, Hx, (sent_one _ _ Hurl Huser)].
    erewrite bind_Raise; [| apply IH; intros t' Ht'; apply Hbefore; by right].
    by rewrite with_requests_app.
Qed.

(** X7. An endpoint that the constructor returns was built without any
    effect.  Built without a user, its calls always get to the transport:
    each leaves one request, to the constructor's base URL followed by
    [/embeddings], with the constructor's model and timeout.  Built with a
    user, none of its calls does: each raises the [TypeError] of the JSON
    encoder and sends nothing. *)
Theorem constructed_endpoint_reaches_the_transport model base_url user timeout w self w1 :
  EmbeddingEndpoint.__init__ model base_url user timeout w = (Return self, w1) →
  w1 = w
  ∧ (user = None →
     ∀ text w2,
       (EmbeddingEndpoint._call_api self text w2).2
       = with_request w2
           {| req_url := base_url +:+ "/embeddings";
              req_headers := [("Content-Type", "application/json")];
              req_json := {| input := text; model := model; user := None |};
              req_timeout := timeout |})
  ∧ (∀ u, user = Some u →
     ∀ text w2,
       EmbeddingEndpoint._call_api self text w2
       = (Raise (TypeError (not_json_serializable "UUID")), w2)).
Proof.
  intros (Hurl & -> & ->)%init_Return_inv. split; [done |]. split.
  - intros -> text w2. rewrite call_api_at, sent_one; done.
  - intros u -> text w2.
    rewrite call_api_at, (sent_none_with_user _ _ u), with_requests_nil; [| done].
    by rewrite (call_result_with_user _ _ u).
Qed.

(** X8. What the factory builds for the endpoint type ["hugging-face"] is
    built without any effect.  Without a [user_id], it sends its requests to
    the endpoint of the configuration followed by [/embeddings], with the
    model of the configuration and a timeout of 60 seconds.  With a
    [user_id], every call on it raises the [TypeError] of the JSON encoder
    and sends nothing. *)
Theorem factory_endpoint_posts_to_configured_url config user_id w m w1 :
  EmbeddingConfig.embedding_endpoint_type config = Some "hugging-face" →
  embedding_model config user_id w = (Return m, w1) →
  w1 = w
  ∧ ∃ self, m = Endpoint self
    ∧ (user_id = None →
       ∀ text w2,
         (EmbeddingEndpoint._call_api self text w2).2
         = with_request w2
             {| req_url := EmbeddingConfig.embedding_endpoint config +:+ "/embeddings";
                req_headers := [("Content-Type", "application/json")];
                req_json := {| input := text;
                               model := EmbeddingConfig.embedding_model config;
                               user := None |};
                req_timeout := 60%float |})
    ∧ (∀ u, user_id = Some u →
       ∀ text w2,
         EmbeddingEndpoint._call_api self text w2
         = (Raise (TypeError (not_json_serializable "UUID")), w2)).
Proof.
  intros Htag. unfold embedding_model. rewrite Htag.
  repeat (case_decide; [done |]). case_decide; [| done].
  intros (self & w0 & Hinit & [= <- <-])%bind_inv_Return.
  apply init_Return_inv in Hinit as (Hurl & -> & ->).
  split; [done |]. eexists. split; [reflexivity |]. split.
  - intros -> text w2. rewrite call_api_at, sent_one; done.
  - intros u -> text w2.
    rewrite call_api_at, (sent_none_with_user _ _ u), with_requests_nil; [| done].
    by rewrite (call_result_with_user _ _ u).
Qed.

End EndpointUseFacts.

(** ** The factory, branch by branch *)

Section FactoryBranchFacts.
Context `{Collaborators}.

Lemma default_embedding_model_at w :
  default_embedding_model w
  = (Return (HuggingFaceEmbedding "BAAI/bge-small-en-v1.5"),
     with_environ w "TOKENIZERS_PARALLELISM" "False").
Proof. reflexivity. Qed.

(** X10. The factory raises on one kind of input only: the endpoint type
    ["hugging-face"] with an endpoint that is not a valid URL, and what it
    raises then is the [ValueError] of the endpoint's constructor.  The
    branches of ["openai"] and ["azure"] do not look at the URL. *)
Theorem embedding_model_raises_iff config user_id w e :
  (embedding_model config user_id w).1 = Raise e
  ↔ EmbeddingConfig.embedding_endpoint_type config = Some "hugging-face"
    ∧ is_valid_url (EmbeddingConfig.embedding_endpoint config) = false
    ∧ e = ValueError ("Embeddings endpoint was provided an invalid URL (set to: '"
                      +:+ EmbeddingConfig.embedding_endpoint config
                      +:+ "'). Make sure embedding_endpoint is set correctly in your MemGPT config.").
Proof.
  unfold embedding_model. split.
  - repeat case_decide; cbn; try discriminate.
    unfold mbind, M_bind, EmbeddingEndpoint.__init__.
    destruct (is_valid_url _); cbn; [discriminate |]. by intros [= <-].
  - intros (-> & Hurl & ->).
    repeat (case_decide; [done |]). case_decide; [| done].
    unfold mbind, M_bind, EmbeddingEndpoint.__init__. by rewrite Hurl.
Qed.

(** X11. For the endpoint type ["azure"], the model is always
    [text-embedding-ada-002], whatever model, endpoint and user the caller
    gives; the deployment is the one of the credentials, and the model name
    when the credentials name none; key, endpoint and version are those of
    the credentials. *)
Theorem azure_model_is_fixed config user_id w :
  EmbeddingConfig.embedding_endpoint_type config = Some "azure" →
  embedding_model config user_id w
  = (Return (AzureOpenAIEmbedding "text-embedding-ada-002"
               (default "text-embedding-ada-002"
                        (azure_embedding_deployment MemGPTCredentials_load))
               (azure_key MemGPTCredentials_load)
               (azure_endpoint MemGPTCredentials_load)
               (azure_version MemGPTCredentials_load)), w).
Proof.
  intros Htag. unfold embedding_model. rewrite Htag.
  case_decide; [done |]. case_decide; [| done].
  by destruct (azure_embedding_deployment _).
Qed.

(** X12. For the endpoint type ["openai"], the base URL is the endpoint of
    the configuration, taken without validation, the key is the one of the
    credentials, and the additional arguments hold the user under
    ["user_id"] when a user is given and are empty otherwise; the model of
    the configuration is not passed on. *)
Theorem openai_model_takes_endpoint_and_user config user_id w :
  EmbeddingConfig.embedding_endpoint_type config = Some "openai" →
  embedding_model config user_id w
  = (Return (OpenAIEmbedding (EmbeddingConfig.embedding_endpoint config)
               (openai_key MemGPTCredentials_load)
               (match user_id with Some u => [("user_id", u)] | None => [] end)), w).
Proof.
  intros Htag. unfold embedding_model. rewrite Htag. by case_decide.
Qed.

(** X13. The default model sets [TOKENIZERS_PARALLELISM] to ["False"],
    replacing any value it had, keeps every other variable, and a second
    call changes nothing more. *)
Theorem default_embedding_model_environment w :
  environ (default_embedding_model w).2 !! "TOKENIZERS_PARALLELISM" = Some "False"
  ∧ (∀ k, k ≠ "TOKENIZERS_PARALLELISM" →
       environ (default_embedding_model w).2 !! k = environ w !! k)
  ∧ default_embedding_model (default_embedding_model w).2
    = default_embedding_model w.
Proof.
  rewrite !default_embedding_model_at. cbn. split; [| split].
  - apply lookup_insert_eq.
  - intros k Hk. by rewrite lookup_insert_ne.
  - unfold with_environ. cbn. by rewrite insert_insert_eq.
Qed.

End FactoryBranchFacts.

(** ** What check_and_split_text prints *)

Section TextChunkerEffects.
Context `{Collaborators}.

Lemma resolve_encoding_at embedding_model w :
  resolve_encoding embedding_model w
  = (Return (resolved_encoding embedding_model),
     {| stdout := stdout w ++ tokenizer_warning embedding_model;
        debug_out := debug_out w; requests := requests w; environ := environ w |}).
Proof.
  unfold resolve_encoding, resolved_encoding, tokenizer_warning, dict_getitem.
  case_decide as Hin.
  - destruct Hin as [name Hname]. rewrite Hname.
    unfold mbind, M_bind, lift, mret, M_ret. destruct w. cbn. by rewrite app_nil_r.
  - apply eq_None_not_Some in Hin. by rewrite Hin.
Qed.

Lemma determine_max_length_at embedding_model w :
  determine_max_length (resolved_encoding embedding_model) embedding_model w
  = (Return (resolved_max_length embedding_model),
     {| stdout := stdout w;
        debug_out := debug_out w ++ max_length_warning embedding_model;
        requests := requests w; environ := environ w |}).
Proof.
  unfold determine_max_length, resolved_max_length, max_length_warning.
  destruct (max_length_attr _); [| reflexivity].
  unfold mret, M_ret. destruct w. cbn. by rewrite app_nil_r.
Qed.

(** X14. When the tokenizer encodes the text, the lines that
    [check_and_split_text] prints are, in this order, the tokenizer warning
    when the model has no entry in the mapping and the truncation warning
    when the token count is past the budget, and no other, and the debug
    line about the default budget is emitted exactly when the tokenizer
    declares no limit.  When the tokenizer raises, only the tokenizer
    warning can have been printed, and no debug line is emitted.  Requests
    and environment are untouched in every case. *)
Theorem check_and_split_text_output text embedding_model w :
  (∀ tokens, encoded embedding_model text = Return tokens →
     stdout (check_and_split_text text embedding_model w).2
     = stdout w ++ tokenizer_warning embedding_model
                ++ truncation_warning embedding_model (Z.of_nat (length tokens))
     ∧ debug_out (check_and_split_text text embedding_model w).2
       = debug_out w ++ max_length_warning embedding_model)
  ∧ (∀ e, encoded embedding_model text = Raise e →
       stdout (check_and_split_text text embedding_model w).2
       = stdout w ++ tokenizer_warning embedding_model
       ∧ debug_out (check_and_split_text text embedding_model w).2 = debug_out w)
  ∧ requests (check_and_split_text text embedding_model w).2 = requests w
  ∧ environ (check_and_split_text text embedding_model w).2 = environ w.
Proof.
  unfold check_and_split_text, encoded.
  rewrite (bind_Return _ _ _ _ _ (resolve_encoding_at embedding_model w)).
  destruct (encode (resolved_encoding embedding_model) text) as [tokens|e0] eqn:Henc.
  - rewrite (bind_Return (lift (Return tokens)) _ _ tokens _ eq_refl).
    rewrite (bind_Return _ _ _ _ _ (determine_max_length_at embedding_model _)).
    unfold truncation_warning, mbind, M_bind, mret, M_ret, print, lift,
      format_text_with_max_length.
    split; [| split; [discriminate |]].
    + intros ? [= <-]. destruct (_ <? _); cbn; by rewrite ?app_nil_r, <- ?app_assoc.
    + destruct (_ <? _); done.
  - rewrite (bind_Raise (lift (Raise e0)) _ _ e0 _ eq_refl). cbn.
    split; [discriminate |]. split; [| done]. by intros ? [= <-].
Qed.

End TextChunkerEffects.

(** ** The padded query, at its edges *)

Section QueryFacts.
Context `{Collaborators}.

Lemma query_embedding_Return_inv get_text_embedding query_text w padded w' :
  query_embedding get_text_embedding query_text w = (Return padded, w') →
  ∃ v : list float,
    get_text_embedding query_text w = (Return v, w')
    ∧ Z.of_nat (length v) ≤ MAX_EMBEDDING_DIM
    ∧ padded = v ++ replicate (Z.to_nat (MAX_EMBEDDING_DIM - Z.of_nat (length v))) 0%float.
Proof.
  unfold query_embedding.
  intros (v & w1 & Hget & Hpad)%bind_inv_Return.
  unfold lift, np_pad_constant in Hpad. cbn in Hpad.
  destruct (Z.ltb_spec (MAX_EMBEDDING_DIM - Z.of_nat (length v)) 0) as [Hneg|Hpos];
    [discriminate Hpad |].
  injection Hpad as <- <-. exists v. split; [done | split; [lia | done]].
Qed.

(** X15. The padded query adds no effect to those of the model, and an
    exception of the model comes out as it is. *)
Theorem query_embedding_propagates get_text_embedding query_text w :
  (query_embedding get_text_embedding query_text w).2 = (get_text_embedding query_text w).2
  ∧ ∀ e, (get_text_embedding query_text w).1 = Raise e →
         (query_embedding get_text_embedding query_text w).1 = Raise e.
Proof.
  unfold query_embedding, mbind, M_bind, lift.
  destruct (get_text_embedding query_text w) as [[v|e0] w1]; cbn; [| done].
  split; [done | discriminate].
Qed.

(** X16. Padding is idempotent: a vector that the padded query returned is
    returned unchanged when it is padded again; and a vector of exactly
    [MAX_EMBEDDING_DIM] components is returned as it is. *)
Theorem query_embedding_idempotent get_text_embedding query_text w (padded : list float) w' :
  query_embedding get_text_embedding query_text w = (Return padded, w') →
  Z.of_nat (length padded) = MAX_EMBEDDING_DIM
  ∧ ∀ query_text' w2,
      query_embedding (λ _, mret padded) query_text' w2 = (Return padded, w2).
Proof.
  intros (v & _ & Hfit & ->)%query_embedding_Return_inv.
  assert (Z.of_nat (length (v ++ replicate
            (Z.to_nat (MAX_EMBEDDING_DIM - Z.of_nat (length v))) 0%float))
          = MAX_EMBEDDING_DIM) as Hlen.
  { rewrite length_app, length_replicate. lia. }
  split; [done |]. intros query_text' w2.
  unfold query_embedding, mbind, M_bind, mret, M_ret, lift, np_pad_constant.
  rewrite Hlen, Z.sub_diag. cbn. by rewrite app_nil_r.
Qed.

End QueryFacts.

(** ** The budget and the payload, in detail *)

Section BudgetAndPayloadFacts.
Context `{Collaborators}.

(** X17. When the resolved tokenizer declares no limit, the budget is 8191
    tokens: a text that encodes to at most 8191 tokens is returned as it is,
    and for a text that encodes to more the function prints that it
    truncates to 8191 tokens and then raises the [TypeError] of the call of
    [format_text]. *)
Theorem default_budget_is_8191 text embedding_model w tokens :
  max_length_attr (resolved_encoding embedding_model) = None →
  encoded embedding_model text = Return tokens →
  (Z.of_nat (length tokens) ≤ 8191 →
   (check_and_split_text text embedding_model w).1 = Return [text])
  ∧ (8191 < Z.of_nat (length tokens) →
     (check_and_split_text text embedding_model w).1
     = Raise (TypeError (unexpected_keyword_argument "format_text" "max_length"))
     ∧ last (stdout (check_and_split_text text embedding_model w).2)
       = Some ("Warning: text is too long (" +:+ pretty (Z.of_nat (length tokens))
               +:+ " tokens), truncating to 8191 tokens.")).
Proof.
  intros Hnone Henc.
  assert (resolved_max_length embedding_model = 8191) as Hbudget.
  { unfold resolved_max_length. by rewrite Hnone. }
  split; intros Hcount.
  - destruct (check_and_split_text_within_budget text embedding_model w tokens Henc)
      as (w' & E & _); [lia | by rewrite E].
  - destruct (check_and_split_text_over_budget text embedding_model w tokens Henc)
      as (w' & E & Hlast); [lia |].
    rewrite E. split; [done |]. cbn. by rewrite Hlast, Hbudget.
Qed.

(** X18. Of an object body only [data[0]["embedding"]] is read: when the
    parser returns an embedding from it, it returns the same embedding after
    any other field of the object is added or replaced, and after the
    elements of ["data"] behind the first are replaced by any others. *)
Theorem parse_payload_reads_first_embedding_only d e w :
  first_embedding (JDict d) e →
  (∀ k v, k ≠ "data" →
     EmbeddingEndpoint.parse_payload (JDict (<[k := v]> d)) w = (Return e, w))
  ∧ (∀ first others others',
       d !! "data" = Some (JList (first :: others)) →
       EmbeddingEndpoint.parse_payload
         (JDict (<["data" := JList (first :: others')]> d)) w = (Return e, w)).
Proof.
  intros (d0 & first0 & others0 & [= <-] & Hdata & Hemb). split.
  - intros k v Hk. apply parse_payload_openai_style.
    exists (<[k := v]> d), first0, others0.
    by rewrite lookup_insert_ne.
  - intros first others others' Hdata'. rewrite Hdata in Hdata'.
    injection Hdata' as <- <-. apply parse_payload_openai_style.
    exists (<["data" := JList (JDict first0 :: others')]> d), first0, others'.
    by rewrite lookup_insert_eq.
Qed.

End BudgetAndPayloadFacts.

(** ** The further properties at work *)

Lemma call_api_issues_exactly_one_request_witness :
  (EmbeddingEndpoint._call_api (H := Served.lengths) Served.endpoint "hello" Sample.world).2
  = with_request Sample.world (Served.request "hello")
  ∧ EmbeddingEndpoint._call_api (H := Served.lengths) Served.tagged_endpoint "hello"
      Sample.world
    = (Raise (TypeError (not_json_serializable "UUID")), Sample.world).
Proof.
  split.
  - exact (proj1 (@call_api_issues_exactly_one_request Served.lengths Served.endpoint
                    "hello" Sample.world eq_refl) eq_refl).
  - exact (proj2 (@call_api_issues_exactly_one_request Served.lengths
                    Served.tagged_endpoint "hello" Sample.world eq_refl)
             {| uuid_int := 7 |} eq_refl).
Defined.

Lemma call_api_returns_iff_witness :
  (EmbeddingEndpoint._call_api (H := Served.lengths) Served.endpoint "hello" Sample.world).1
  = Return (JList [JInt 5]).
Proof.
  apply (proj2 (@call_api_returns_iff Served.lengths Served.endpoint "hello"
                  Sample.world (JList [JInt 5]))).
  split; [reflexivity |].
  exists (JList [JInt 5]), (JList [JInt 5]).
  split; [reflexivity | split; [reflexivity |]].
  left. by exists [JInt 5].
Defined.

Lemma call_api_raises_only_witness :
  (Sample.is_http_url "http://localhost:8080" = false
   ∧ (∃ msg, External "ReadTimeout" = ValueError msg)
   ∧ (EmbeddingEndpoint._call_api (H := Served.lengths) Served.endpoint "" Sample.world).2
     = Sample.world)
  ∨ post (H := Served.lengths) (Served.request "") = Raise (External "ReadTimeout")
  ∨ (∃ resp : json,
       post (H := Served.lengths) (Served.request "") = Return resp
       ∧ Response_json (Collaborators := Served.lengths) resp = Raise (External "ReadTimeout"))
  ∨ (∃ (resp body : json) why,
       post (H := Served.lengths) (Served.request "") = Return resp
       ∧ Response_json (Collaborators := Served.lengths) resp = Return body
       ∧ External "ReadTimeout" = TypeError why
       ∧ (∀ items, body ≠ JList items) ∧ (∀ x, ¬ first_embedding body x)).
Proof.
  exact (@call_api_raises_only Served.lengths Served.endpoint "" Sample.world
           (External "ReadTimeout") eq_refl).
Defined.

Lemma transport_exception_propagates_witness :
  EmbeddingEndpoint._call_api (H := Served.lengths) Served.endpoint "" Sample.world
  = (Raise (External "ReadTimeout"), with_request Sample.world (Served.request "")).
Proof.
  exact (proj1 (@transport_exception_propagates Served.lengths Served.endpoint ""
                  Sample.world (External "ReadTimeout") eq_refl eq_refl eq_refl)).
Defined.

Lemma get_text_embeddings_elementwise_witness :
  Return <$> [JList [JInt 2]; JList [JInt 1]]
  = call_result (H := Served.lengths) Served.endpoint <$> ["ab"; "c"]
  ∧ with_requests Sample.world [Served.request "ab"; Served.request "c"]
    = with_requests Sample.world
        (EmbeddingEndpoint.build_request Served.endpoint <$> ["ab"; "c"]).
Proof.
  exact (@get_text_embeddings_elementwise Served.lengths Served.endpoint ["ab"; "c"]
           Sample.world [JList [JInt 2]; JList [JInt 1]]
           (with_requests Sample.world [Served.request "ab"; Served.request "c"])
           eq_refl).
Defined.

Lemma get_text_embeddings_stops_at_first_failure_witness :
  EmbeddingEndpoint._get_text_embeddings (H := Served.lengths) Served.endpoint
    ["ab"; ""; "c"] Sample.world
  = (Raise (External "ReadTimeout"),
     with_requests Sample.world [Served.request "ab"; Served.request ""]).
Proof.
  apply (@get_text_embeddings_stops_at_first_failure Served.lengths Served.endpoint
           ["ab"] "" ["c"] Sample.world (External "ReadTimeout")).
  - reflexivity.
  - reflexivity.
  - intros t ->%list_elem_of_singleton. by exists (JList [JInt 2]).
  - reflexivity.
Defined.

Lemma constructed_endpoint_reaches_the_transport_witness :
  (∀ text w2,
     (EmbeddingEndpoint._call_api (H := Served.lengths) Served.endpoint text w2).2
     = with_request w2 (Served.request text))
  ∧ (∀ text w2,
       EmbeddingEndpoint._call_api (H := Served.lengths) Served.tagged_endpoint text w2
       = (Raise (TypeError (not_json_serializable "UUID")), w2)).
Proof.
  split.
  - exact (proj1 (proj2 (@constructed_endpoint_reaches_the_transport Served.lengths
                           "BAAI/bge-large-en-v1.5" "http://localhost:8080" None 60%float
                           Sample.world Served.endpoint Sample.world eq_refl)) eq_refl).
  - exact (proj2 (proj2 (@constructed_endpoint_reaches_the_transport Served.lengths
                           "BAAI/bge-large-en-v1.5" "http://localhost:8080"
                           (Some {| uuid_int := 7 |}) 60%float
                           Sample.world Served.tagged_endpoint Sample.world eq_refl))
             {| uuid_int := 7 |} eq_refl).
Defined.

Lemma factory_endpoint_posts_to_configured_url_witness :
  (∃ self, Endpoint Served.endpoint = Endpoint self
     ∧ ∀ text w2,
         (EmbeddingEndpoint._call_api (H := Served.lengths) self text w2).2
         = with_request w2 (Served.request text))
  ∧ (∃ self, Endpoint Served.tagged_endpoint = Endpoint self
       ∧ ∀ text w2,
           EmbeddingEndpoint._call_api (H := Served.lengths) self text w2
           = (Raise (TypeError (not_json_serializable "UUID")), w2)).
Proof.
  split.
  - destruct (proj2 (@factory_endpoint_posts_to_configured_url Served.lengths
                       (Sample.config (Some "hugging-face")) None Sample.world
                       (Endpoint Served.endpoint) Sample.world eq_refl eq_refl))
      as (self & Hbuilt & Hsends & _).
    exists self. split; [exact Hbuilt | exact (Hsends eq_refl)].
  - destruct (proj2 (@factory_endpoint_posts_to_configured_url Served.lengths
                       (Sample.config (Some "hugging-face")) (Some {| uuid_int := 7 |})
                       Sample.world (Endpoint Served.tagged_endpoint) Sample.world
                       eq_refl eq_refl))
      as (self & Hbuilt & _ & Hraises).
    exists self. split; [exact Hbuilt | exact (Hraises {| uuid_int := 7 |} eq_refl)].
Defined.

Lemma embedding_model_raises_iff_witness :
  (embedding_model (H := Served.lengths)
     {| EmbeddingConfig.embedding_endpoint_type := Some "hugging-face";
        EmbeddingConfig.embedding_endpoint := "localhost:8080";
        EmbeddingConfig.embedding_model := "BAAI/bge-large-en-v1.5" |}
     None Sample.world).1
  = Raise (ValueError "Embeddings endpoint was provided an invalid URL (set to: 'localhost:8080'). Make sure embedding_endpoint is set correctly in your MemGPT config.").
Proof.
  apply (proj2 (@embedding_model_raises_iff Served.lengths
                  {| EmbeddingConfig.embedding_endpoint_type := Some "hugging-face";
                     EmbeddingConfig.embedding_endpoint := "localhost:8080";
                     EmbeddingConfig.embedding_model := "BAAI/bge-large-en-v1.5" |}
                  None Sample.world _)).
  split; [reflexivity | split; reflexivity].
Defined.

Lemma azure_model_is_fixed_witness :
  embedding_model (H := Served.lengths) (Sample.config (Some "azure"))
    (Some {| uuid_int := 7 |}) Sample.world
  = (Return (AzureOpenAIEmbedding "text-embedding-ada-002" "text-embedding-ada-002"
               (Some "az-test") (Some "https://example.openai.azure.com")
               (Some "2023-05-15")), Sample.world).
Proof.
  exact (@azure_model_is_fixed Served.lengths (Sample.config (Some "azure"))
           (Some {| uuid_int := 7 |}) Sample.world eq_refl).
Defined.

Lemma openai_model_takes_endpoint_and_user_witness :
  embedding_model (H := Served.lengths) (Sample.config (Some "openai"))
    (Some {| uuid_int := 7 |}) Sample.world
  = (Return (OpenAIEmbedding "http://localhost:8080" (Some "sk-test")
               [("user_id", {| uuid_int := 7 |})]), Sample.world).
Proof.
  exact (@openai_model_takes_endpoint_and_user Served.lengths
           (Sample.config (Some "openai")) (Some {| uuid_int := 7 |})
           Sample.world eq_refl).
Defined.

Lemma query_embedding_propagates_witness :
  (query_embedding (H := Sample.collaborators)
     (λ _, raise (External "ReadTimeout")) "q" Sample.world).1
  = Raise (External "ReadTimeout").
Proof.
  exact (proj2 (@query_embedding_propagates Sample.collaborators
                  (λ _, raise (External "ReadTimeout")) "q" Sample.world)
           (External "ReadTimeout") eq_refl).
Defined.

Lemma query_embedding_idempotent_witness :
  Z.of_nat (length [1; 2; 0; 0; 0]%float) = 5
  ∧ ∀ query_text' w2,
      query_embedding (H := Sample.collaborators)
        (λ _, mret [1; 2; 0; 0; 0]%float) query_text' w2
      = (Return [1; 2; 0; 0; 0]%float, w2).
Proof.
  exact (@query_embedding_idempotent Sample.collaborators
           (Sample.answering [1; 2]%float) "q" Sample.world
           [1; 2; 0; 0; 0]%float Sample.world eq_refl).
Defined.

Lemma default_budget_is_8191_witness :
  (check_and_split_text (H := Sample.collaborators)
     "hello" "BAAI/bge-large-en-v1.5" Sample.world).1 = Return ["hello"]
  ∧ (check_and_split_text (H := Sample.collaborators)
       Sample.long_text "BAAI/bge-large-en-v1.5" Sample.world).1
    = Raise (TypeError (unexpected_keyword_argument "format_text" "max_length"))
  ∧ last (stdout (check_and_split_text (H := Sample.collaborators)
                    Sample.long_text "BAAI/bge-large-en-v1.5" Sample.world).2)
    = Some ("Warning: text is too long ("
            +:+ pretty (Z.of_nat (length (Sample.chars Sample.long_text)))
            +:+ " tokens), truncating to 8191 tokens.").
Proof.
  split.
  - apply (proj1 (@default_budget_is_8191 Sample.collaborators
                    "hello" "BAAI/bge-large-en-v1.5" Sample.world
                    (Sample.chars "hello") eq_refl eq_refl)).
    by vm_compute.
  - apply (proj2 (@default_budget_is_8191 Sample.collaborators
                    Sample.long_text "BAAI/bge-large-en-v1.5" Sample.world
                    (Sample.chars Sample.long_text) eq_refl
                    ltac:(by vm_compute))).
    by vm_compute.
Defined.

Lemma parse_payload_reads_first_embedding_only_witness :
  EmbeddingEndpoint.parse_payload
    (JDict (<["model" := JStr "BAAI/bge-large-en-v1.5"]>
              {[ "data" := JList [JDict {[ "embedding" := JList [JFloat 0.5] ]}] ]}))
    Sample.world
  = (Return (JList [JFloat 0.5]), Sample.world).
Proof.
  refine (proj1 (parse_payload_reads_first_embedding_only
                   {[ "data" := JList [JDict {[ "embedding" := JList [JFloat 0.5] ]}] ]}
                   (JList [JFloat 0.5]) Sample.world _) "model" _ _).
  - exists {[ "data" := JList [JDict {[ "embedding" := JList [JFloat 0.5] ]}] ]},
           {[ "embedding" := JList [JFloat 0.5] ]}, [].
    split; [reflexivity | split; reflexivity].
  - discriminate.
Defined.
